(** * The [shared] AWS convenience wrapper, embedded and verified

    The Go package [shared] wraps three AWS services behind one struct:
    Secrets Manager ([GetSecret], [GetSingleSecret], [GrabSecret],
    [SetSecretToEnvironmentVariables]), SQS ([GetQueueUrl],
    [SendStringMessageToSqs], [SendStringMessageWithAttributesToSqs]) and
    S3 ([UploadFileToS3]).

    The repository holds two families of the package:
    - the [AwsInterface] family (main.go, part_000, part_002), whose secret
      reader is [GetSecret]; part_002 is the complete one and is the file
      embedded in [Module AwsInterface];
    - the [AwsResources] family (part_001, part_003), whose secret reader is
      [GrabSecret]; embedded in [Module AwsResources].

    Every method is a shallow embedding: a Rocq function in the monad [Go],
    which threads the process state (standard output, environment, the
    requests sent to the provider) and can panic.  The provider SDK is an
    external collaborator: each SDK entry point is a field of the client
    record, a function from the request to the pair (response pointer,
    error) that the Go call returns.  The pieces of the Go standard library
    the package calls (strings, encoding/base64, encoding/json, os.Setenv,
    fmt) are modelled in the modules named after them. *)

From Stdlib Require Import Ascii String NArith ZArith.
From stdpp Require Import gmap strings list fin_maps pretty.

(** ** Go values *)

(** A Go pointer is either nil or points to a value. *)
Abbreviation ptr := option (only parsing).

(** [aws.String(s)] allocates a string and returns its address. *)
Definition aws_String (s : string) : ptr string := Some s.
Definition aws_Int64 (n : Z) : ptr Z := Some n.

(** The dynamic errors the package can see.  Positions and messages of the
    decoding errors are not modelled: no caller inspects them. *)
Inductive errno := EINVAL.

Inductive error :=
  | ProviderError (code : string)          (* any error of the AWS SDK, timeouts included *)
  | PathError (op path : string)           (* os.Open *)
  | CorruptInputError                      (* encoding/base64 *)
  | SyntaxError                            (* encoding/json: the input is not JSON *)
  | UnmarshalTypeError (value : string)    (* encoding/json: JSON value of the wrong kind *)
  | SyscallError (syscall : string) (e : errno)   (* os.Setenv *)
  | errorString (s : string).              (* errors.New *)

Global Instance errno_eq_dec : EqDecision errno.
Proof. solve_decision. Defined.
Global Instance error_eq_dec : EqDecision error.
Proof. solve_decision. Defined.

(** The operands the package hands to [fmt.Println]. *)
Inductive any :=
  | AString (s : string)
  | AError (e : error).

(** The values of type [interface{}] a message attribute can hold: strings
    and the scalars that are not strings. *)
Inductive scalar :=
  | SString (s : string)
  | SInt (n : Z)
  | SBool (b : bool).

(** ** The process and the monad of Go code *)

(** What a context-carrying SDK call is given: the deadline, in seconds. *)
Record Context := { Deadline : option Z }.
Definition context_Background : Context := {| Deadline := None |}.
Definition context_WithTimeout (ctx : Context) (seconds : Z) : Context :=
  {| Deadline := Some (match Deadline ctx with
                       | Some d => Z.min d seconds
                       | None => seconds
                       end) |}.

Module session.
(** The handle to the credentials and the region; the package only keeps it. *)
Record Session := { Region : ptr string }.
End session.

Module secretsmanager.
Record GetSecretValueInput := {
  SecretId : ptr string;
  VersionStage : ptr string
}.
(** [SecretBinary] is a byte slice; the nil slice is the empty one. *)
Record GetSecretValueOutput := {
  SecretString : ptr string;
  SecretBinary : string
}.
Record SecretsManager := {
  GetSecretValueWithContext :
    Context → GetSecretValueInput → ptr GetSecretValueOutput * option error
}.
End secretsmanager.

Module sqs.
Record GetQueueUrlInput := { QueueName : ptr string }.
Record GetQueueUrlOutput := { QueueUrl : ptr string }.
Record MessageAttributeValue := {
  DataType : ptr string;
  StringValue : ptr string
}.
(** [QueueUrl_in] is the field [QueueUrl] of the input; the name without
    suffix is the field of [GetQueueUrlOutput]. *)
Record SendMessageInput := {
  MessageBody : ptr string;
  MessageAttributes : gmap string MessageAttributeValue;
  QueueUrl_in : ptr string
}.
Record SendMessageOutput := { MessageId : ptr string }.
Record SQS := {
  GetQueueUrl : GetQueueUrlInput → ptr GetQueueUrlOutput * option error;
  SendMessage : SendMessageInput → ptr SendMessageOutput * option error
}.
End sqs.

Module s3.
Record PutObjectInput := {
  Bucket : ptr string;
  Key : ptr string;
  ACL : ptr string;
  Body : string;
  ContentLength : ptr Z;
  ContentType : ptr string;
  ContentDisposition : ptr string;
  ServerSideEncryption : ptr string
}.
Record PutObjectOutput := { ETag : ptr string }.
Record S3 := {
  PutObjectWithContext :
    Context → PutObjectInput → ptr PutObjectOutput * option error
}.
End s3.

(** A request that left the process. *)
Inductive request :=
  | ReqGetSecretValue (ctx : Context) (i : secretsmanager.GetSecretValueInput)
  | ReqGetQueueUrl (i : sqs.GetQueueUrlInput)
  | ReqSendMessage (i : sqs.SendMessageInput)
  | ReqPutObject (ctx : Context) (i : s3.PutObjectInput).

(** An open file: what [Stat] reports (nil when it fails) and the bytes a
    [Read] into a buffer of the given length delivers. *)
Record FileInfo := { Size : Z }.
Record File := {
  Stat : ptr FileInfo;
  Read : nat → string
}.

(** The observable state of the process: the lines written to standard
    output (each a list of operands of [fmt.Println]), the environment,
    the requests sent so far, oldest first, and the file system as
    [os.Open] sees it. *)
Record World := {
  stdout : list (list any);
  environ : gmap string string;
  sent : list request;
  files : string → File + error
}.

Inductive panic :=
  | NilDereference       (* invalid memory address or nil pointer dereference *)
  | IndexOutOfRange      (* index out of range *)
  | LenOutOfRange.       (* makeslice: len out of range *)

Inductive outcome (A : Type) :=
  | Returned (a : A)
  | Panicked (p : panic).
Arguments Returned {A} a.
Arguments Panicked {A} p.

Definition Go (A : Type) : Type := World → outcome A * World.

Global Instance Go_ret : MRet Go := λ A a w, (Returned a, w).
Global Instance Go_bind : MBind Go := λ A B f m w,
  match m w with
  | (Returned a, w') => f a w'
  | (Panicked p, w') => (Panicked p, w')
  end.

Definition throw {A} (p : panic) : Go A := λ w, (Panicked p, w).

(** [*p] *)
Definition deref {A} (p : ptr A) : Go A :=
  match p with
  | Some a => mret a
  | None => throw NilDereference
  end.

(** [s[i]] on a slice *)
Definition index {A} (s : list A) (i : Z) : Go A :=
  if decide (0 ≤ i)%Z then
    match s !! Z.to_nat i with
    | Some a => mret a
    | None => throw IndexOutOfRange
    end
  else throw IndexOutOfRange.

Definition send (r : request) : Go () := λ w,
  (Returned (), {| stdout := stdout w; environ := environ w;
                   sent := sent w ++ [r]; files := files w |}).

Module fmt.
Definition Println (args : list any) : Go () := λ w,
  (Returned (), {| stdout := stdout w ++ [args]; environ := environ w;
                   sent := sent w; files := files w |}).

(** [fmt.Sprintf("%s", v)]: a string is copied; for an operand that is
    not a string the verb is wrong and fmt says so in the output. *)
Definition Sprintf_s (v : scalar) : string :=
  match v with
  | SString s => s
  | SInt n => "%!s(int=" +:+ pretty n +:+ ")"
  | SBool b => "%!s(bool=" +:+ (if b then "true" else "false") +:+ ")"
  end.
End fmt.

Module errors.
Definition New (s : string) : error := errorString s.
End errors.

(** ** package strings *)

Module Strings.
(** [strings.Contains(s, substr)] *)
Fixpoint Contains (s substr : string) : bool :=
  String.prefix substr s ||
  match s with
  | EmptyString => false
  | String _ s' => Contains s' substr
  end.

(** [strings.Split(s, sep)] for a separator of one byte, which is how the
    package calls it: the pieces of [s] between the separators, in order;
    a string without separator is its own single piece. *)
Fixpoint Split (s : string) (sep : ascii) : list string :=
  match s with
  | EmptyString => [EmptyString]
  | String c s' =>
      if Ascii.eqb c sep then EmptyString :: Split s' sep
      else match Split s' sep with
           | piece :: pieces => String c piece :: pieces
           | [] => [String c EmptyString]
           end
  end.
End Strings.

(** ** Bytes *)

(** Go strings and byte slices are sequences of bytes; both are [string]
    here, and a byte is an [ascii]. *)
Definition ord (c : ascii) : N := N_of_ascii c.
Definition to_byte (n : N) : ascii := ascii_of_N (N.land n 255).
Definition between (lo hi : N) (c : ascii) : bool :=
  ((lo <=? ord c) && (ord c <=? hi))%N.
Definition is_byte (c d : ascii) : bool := Ascii.eqb c d.

Definition dquote : ascii := "034"%char.
Definition backslash : ascii := "092"%char.

(** Literals of this file write a JSON text with ' for the double quote. *)
Fixpoint text (s : string) : string :=
  match s with
  | EmptyString => EmptyString
  | String c s' => String (if is_byte c "'" then dquote else c) (text s')
  end.

(** [make([]byte, n)]: n zero bytes *)
Fixpoint zeros (n : nat) : string :=
  match n with
  | O => EmptyString
  | S n' => String Ascii.zero (zeros n')
  end.

(** ** package encoding/base64, the padded standard encoding *)

Module base64.
(** The decoding table of the standard alphabet. *)
Definition decodeMap (c : ascii) : option N :=
  if between 65 90 c then Some (ord c - 65)%N           (* A-Z *)
  else if between 97 122 c then Some (ord c - 71)%N     (* a-z *)
  else if between 48 57 c then Some (ord c + 4)%N       (* 0-9 *)
  else if is_byte c "+" then Some 62%N
  else if is_byte c "/" then Some 63%N
  else None.

Definition isNewline (c : ascii) : bool := is_byte c "010" || is_byte c "013".

Fixpoint skipNewlines (s : string) : string :=
  match s with
  | EmptyString => EmptyString
  | String c s' => if isNewline c then skipNewlines s' else s
  end.

(** The bytes of a quantum of [dlen] sextets: [dlen - 1] bytes, the
    unused low bits dropped (the encoding is not strict). *)
Definition quantum (dbuf : list N) : string :=
  let val := fold_left (λ acc d, N.lor (N.shiftl acc 6) d) dbuf 0%N in
  match length dbuf with
  | 4 => String (to_byte (N.shiftr val 16)) (String (to_byte (N.shiftr val 8))
           (String (to_byte val) EmptyString))
  | 3 => String (to_byte (N.shiftr val 10)) (String (to_byte (N.shiftr val 2)) EmptyString)
  | 2 => String (to_byte (N.shiftr val 4)) EmptyString
  | _ => EmptyString
  end.

(** After the padding of the last quantum only newlines may follow;
    the quantum is written either way. *)
Definition trailer (dbuf : list N) (rest : string) : string * option error :=
  (quantum dbuf,
   match skipNewlines rest with
   | EmptyString => None
   | String _ _ => Some CorruptInputError
   end).

(** [decodeQuantum] iterated over the source: [dbuf] holds the sextets of
    the quantum being read.  The result is the bytes written to the
    destination and the error. *)
Fixpoint decode (src : string) (dbuf : list N) : string * option error :=
  match src with
  | EmptyString =>
      match dbuf with
      | [] => (EmptyString, None)
      | _ :: _ => (EmptyString, Some CorruptInputError)
      end
  | String c rest =>
      match decodeMap c with
      | Some d =>
          match dbuf with
          | [_; _; _] =>
              let '(out, err) := decode rest [] in
              (quantum (dbuf ++ [d]) +:+ out, err)
          | _ => decode rest (dbuf ++ [d])
          end
      | None =>
          if isNewline c then decode rest dbuf
          else if negb (is_byte c "=") then (EmptyString, Some CorruptInputError)
          else
            match dbuf with
            | [] | [_] => (EmptyString, Some CorruptInputError)
            | [_; _] =>
                match skipNewlines rest with
                | EmptyString => (EmptyString, Some CorruptInputError)
                | String c' rest' =>
                    if is_byte c' "=" then trailer dbuf rest'
                    else (EmptyString, Some CorruptInputError)
                end
            | _ => trailer dbuf rest
            end
      end
  end.

(** [StdEncoding.DecodedLen(n)] *)
Definition DecodedLen (n : nat) : nat := n / 4 * 3.

(** [StdEncoding.Decode(dst, src)] for a destination of
    [DecodedLen(len(src))] zero bytes, as both callers make it: the
    destination after the call, the number of bytes written, the error. *)
Definition Decode (src : string) : string * nat * option error :=
  let '(out, err) := decode src [] in
  let n := String.length out in
  (out +:+ zeros (DecodedLen (String.length src) - n), n, err).
End base64.

(** ** package unicode/utf8 and unicode/utf16, as encoding/json uses them *)

Module utf8.
Definition RuneError : N := 65533.   (* U+FFFD *)
Definition MaxRune : N := 1114111.   (* U+10FFFF *)

Definition isSurrogate (r : N) : bool := ((55296 <=? r) && (r <? 57344))%N.

Definition cont (r : N) (shift : N) : ascii :=
  to_byte (N.lor 128 (N.land (N.shiftr r shift) 63)).

(** [utf8.EncodeRune] *)
Definition EncodeRune (r : N) : string :=
  if (r <=? 127)%N then String (to_byte r) EmptyString
  else if (r <=? 2047)%N then
    String (to_byte (N.lor 192 (N.shiftr r 6))) (String (cont r 0) EmptyString)
  else if (MaxRune <? r)%N || isSurrogate r then
    String (to_byte 239) (String (to_byte 191) (String (to_byte 189) EmptyString))
  else if (r <=? 65535)%N then
    String (to_byte (N.lor 224 (N.shiftr r 12)))
      (String (cont r 6) (String (cont r 0) EmptyString))
  else
    String (to_byte (N.lor 240 (N.shiftr r 18)))
      (String (cont r 12) (String (cont r 6) (String (cont r 0) EmptyString))).

(** The sequences [utf8.DecodeRune] accepts, by length. *)
Definition valid2 (c0 c1 : ascii) : bool :=
  between 194 223 c0 && between 128 191 c1.
Definition valid3 (c0 c1 c2 : ascii) : bool :=
  (is_byte c0 (to_byte 224) && between 160 191 c1
   || between 225 236 c0 && between 128 191 c1
   || is_byte c0 (to_byte 237) && between 128 159 c1
   || between 238 239 c0 && between 128 191 c1)
  && between 128 191 c2.
Definition valid4 (c0 c1 c2 c3 : ascii) : bool :=
  (is_byte c0 (to_byte 240) && between 144 191 c1
   || between 241 243 c0 && between 128 191 c1
   || is_byte c0 (to_byte 244) && between 128 143 c1)
  && between 128 191 c2 && between 128 191 c3.
End utf8.

Module utf16.
(** [utf16.DecodeRune]: the code point of a surrogate pair, U+FFFD when
    the two are not a pair. *)
Definition DecodeRune (r1 r2 : N) : N :=
  if ((55296 <=? r1) && (r1 <? 56320) && (56320 <=? r2) && (r2 <? 57344))%N
  then (N.lor (N.shiftl (r1 - 55296) 10) (r2 - 56320) + 65536)%N
  else utf8.RuneError.
End utf16.

(** ** package encoding/json, decoding into a [map[string]string] *)

Module json.
#[local] Set Warnings "-register-all".
Inductive value :=
  | JNull
  | JBool (b : bool)
  | JNumber (literal : string)
  | JString (s : string)
  | JArray (items : list value)
  | JObject (members : list (string * value)).

(** *** The scanner: bytes to tokens

    A string token carries the bytes between its quotes, escapes not yet
    decoded; a number token carries its literal. *)
Inductive token :=
  | TLBrace | TRBrace | TLBracket | TRBracket | TColon | TComma
  | TString (raw : string)
  | TNumber (literal : string)
  | TTrue | TFalse | TNull.

(** The accumulators hold the bytes read so far, last one first. *)
Inductive lstate :=
  | LStart                               (* between tokens *)
  | LString (acc : string)               (* stateInString *)
  | LEsc (acc : string)                  (* stateInStringEsc *)
  | LEscU (acc : string) (more : nat)    (* stateInStringEscU..U123 *)
  | LNeg (acc : string)                  (* stateNeg *)
  | LZero (acc : string)                 (* state0 *)
  | LInt (acc : string)                  (* state1 *)
  | LDot (acc : string)                  (* stateDot *)
  | LFrac (acc : string)                 (* stateDot0 *)
  | LExp (acc : string)                  (* stateE *)
  | LExpSign (acc : string)              (* stateESign *)
  | LExpDigits (acc : string)            (* stateE0 *)
  | LLit (rest : string) (t : token).    (* stateT.., stateF.., stateN.. *)

Definition isSpace (c : ascii) : bool :=
  is_byte c " " || is_byte c "009" || is_byte c "013" || is_byte c "010".
Definition isDigit (c : ascii) : bool := between 48 57 c.
Definition isHex (c : ascii) : bool :=
  between 48 57 c || between 97 102 c || between 65 70 c.

(** stateBeginValue and stateEndValue, on a byte that starts a token *)
Definition lex_start (c : ascii) : option (list token * lstate) :=
  if isSpace c then Some ([], LStart)
  else if is_byte c "{" then Some ([TLBrace], LStart)
  else if is_byte c "}" then Some ([TRBrace], LStart)
  else if is_byte c "[" then Some ([TLBracket], LStart)
  else if is_byte c "]" then Some ([TRBracket], LStart)
  else if is_byte c ":" then Some ([TColon], LStart)
  else if is_byte c "," then Some ([TComma], LStart)
  else if is_byte c dquote then Some ([], LString EmptyString)
  else if is_byte c "-" then Some ([], LNeg (String c EmptyString))
  else if is_byte c "0" then Some ([], LZero (String c EmptyString))
  else if between 49 57 c then Some ([], LInt (String c EmptyString))
  else if is_byte c "t" then Some ([], LLit "rue" TTrue)
  else if is_byte c "f" then Some ([], LLit "alse" TFalse)
  else if is_byte c "n" then Some ([], LLit "ull" TNull)
  else None.

(** A number ends at the first byte that cannot continue it; that byte
    is then read as the start of what follows. *)
Definition end_number (acc : string) (c : ascii) : option (list token * lstate) :=
  '(ts, st) ← lex_start c; Some (TNumber (String.rev acc) :: ts, st).

Definition lex_step (st : lstate) (c : ascii) : option (list token * lstate) :=
  match st with
  | LStart => lex_start c
  | LString acc =>
      if is_byte c dquote then Some ([TString (String.rev acc)], LStart)
      else if is_byte c backslash then Some ([], LEsc (String c acc))
      else if (ord c <? 32)%N then None
      else Some ([], LString (String c acc))
  | LEsc acc =>
      if is_byte c "b" || is_byte c "f" || is_byte c "n" || is_byte c "r"
         || is_byte c "t" || is_byte c backslash || is_byte c "/"
         || is_byte c dquote
      then Some ([], LString (String c acc))
      else if is_byte c "u" then Some ([], LEscU (String c acc) 4)
      else None
  | LEscU acc more =>
      if isHex c then
        match more with
        | S (S more') => Some ([], LEscU (String c acc) (S more'))
        | _ => Some ([], LString (String c acc))
        end
      else None
  | LNeg acc =>
      if is_byte c "0" then Some ([], LZero (String c acc))
      else if between 49 57 c then Some ([], LInt (String c acc))
      else None
  | LInt acc =>
      if isDigit c then Some ([], LInt (String c acc))
      else if is_byte c "." then Some ([], LDot (String c acc))
      else if is_byte c "e" || is_byte c "E" then Some ([], LExp (String c acc))
      else end_number acc c
  | LZero acc =>
      if is_byte c "." then Some ([], LDot (String c acc))
      else if is_byte c "e" || is_byte c "E" then Some ([], LExp (String c acc))
      else end_number acc c
  | LDot acc =>
      if isDigit c then Some ([], LFrac (String c acc)) else None
  | LFrac acc =>
      if isDigit c then Some ([], LFrac (String c acc))
      else if is_byte c "e" || is_byte c "E" then Some ([], LExp (String c acc))
      else end_number acc c
  | LExp acc =>
      if is_byte c "+" || is_byte c "-" then Some ([], LExpSign (String c acc))
      else if isDigit c then Some ([], LExpDigits (String c acc))
      else None
  | LExpSign acc =>
      if isDigit c then Some ([], LExpDigits (String c acc)) else None
  | LExpDigits acc =>
      if isDigit c then Some ([], LExpDigits (String c acc))
      else end_number acc c
  | LLit rest t =>
      match rest with
      | String r rest' =>
          if is_byte c r then
            match rest' with
            | EmptyString => Some ([t], LStart)
            | String _ _ => Some ([], LLit rest' t)
            end
          else None
      | EmptyString => None
      end
  end.

(** The end of the input closes a number and nothing else. *)
Definition lex_eof (st : lstate) : option (list token) :=
  match st with
  | LStart => Some []
  | LZero acc | LInt acc | LFrac acc | LExpDigits acc =>
      Some [TNumber (String.rev acc)]
  | _ => None
  end.

Fixpoint lex (st : lstate) (s : string) : option (list token) :=
  match s with
  | EmptyString => lex_eof st
  | String c s' =>
      '(ts, st') ← lex_step st c;
      rest ← lex st' s';
      Some (ts ++ rest)
  end.

(** *** String literals

    [unquote] decodes the inside of a string literal the scanner has
    accepted: escapes are replaced, and bytes that are not UTF-8 become
    U+FFFD.  (On a literal the scanner rejects it stops; encoding/json
    never calls it on one.) *)
Definition hexval (c : ascii) : N :=
  if between 48 57 c then (ord c - 48)%N
  else if between 97 102 c then (ord c - 87)%N
  else (ord c - 55)%N.

Definition getu4 (h1 h2 h3 h4 : ascii) : N :=
  (((hexval h1 * 16 + hexval h2) * 16 + hexval h3) * 16 + hexval h4)%N.

Definition escape (c : ascii) : ascii :=
  if is_byte c "b" then "008"%char
  else if is_byte c "f" then "012"%char
  else if is_byte c "n" then "010"%char
  else if is_byte c "r" then "013"%char
  else if is_byte c "t" then "009"%char
  else c.

Definition replacement : string := utf8.EncodeRune utf8.RuneError.

Fixpoint unquote (s : string) : string :=
  match s with
  | EmptyString => EmptyString
  | String c r1 =>
      if is_byte c backslash then
        match r1 with
        | EmptyString => EmptyString
        | String e r2 =>
            if is_byte e "u" then
              match r2 with
              | String h1 (String h2 (String h3 (String h4 r6))) =>
                  let rr := getu4 h1 h2 h3 h4 in
                  if utf8.isSurrogate rr then
                    match r6 with
                    | String b (String u (String g1 (String g2 (String g3 (String g4 r12))))) =>
                        let dec :=
                          if is_byte b backslash && is_byte u "u" && isHex g1
                             && isHex g2 && isHex g3 && isHex g4
                          then utf16.DecodeRune rr (getu4 g1 g2 g3 g4)
                          else utf8.RuneError in
                        if (dec =? utf8.RuneError)%N then replacement +:+ unquote r6
                        else utf8.EncodeRune dec +:+ unquote r12
                    | _ => replacement +:+ unquote r6
                    end
                  else utf8.EncodeRune rr +:+ unquote r6
              | _ => EmptyString
              end
            else String (escape e) (unquote r2)
        end
      else if (ord c <? 128)%N then String c (unquote r1)
      else
        match r1 with
        | EmptyString => replacement
        | String c1 r2 =>
            if utf8.valid2 c c1 then String c (String c1 (unquote r2))
            else
              match r2 with
              | EmptyString => replacement +:+ unquote r1
              | String c2 r3 =>
                  if utf8.valid3 c c1 c2 then
                    String c (String c1 (String c2 (unquote r3)))
                  else
                    match r3 with
                    | EmptyString => replacement +:+ unquote r1
                    | String c3 r4 =>
                        if utf8.valid4 c c1 c2 c3 then
                          String c (String c1 (String c2 (String c3 (unquote r4))))
                        else replacement +:+ unquote r1
                    end
              end
        end
  end.

(** *** The grammar: tokens to a value

    The parser is the pushdown automaton of the scanner: a frame is an
    open array or object waiting for one of its values. *)
Inductive frame :=
  | FArray (items : list value)                        (* items read, last first *)
  | FObject (members : list (string * value)) (key : string).

Inductive pstate :=
  | PValue (stk : list frame)                          (* a value must begin *)
  | PArrayOpen (stk : list frame)                      (* after [ *)
  | PArrayNext (items : list value) (stk : list frame) (* after a value of an array *)
  | PObjectOpen (stk : list frame)                     (* after { *)
  | PObjectKey (members : list (string * value)) (stk : list frame)   (* after , *)
  | PObjectColon (members : list (string * value)) (key : string) (stk : list frame)
  | PObjectNext (members : list (string * value)) (stk : list frame)  (* after a value *)
  | PDone (v : value).                                 (* the top value is complete *)

Definition maxNestingDepth : N := 10000.

Definition complete (v : value) (stk : list frame) : pstate :=
  match stk with
  | [] => PDone v
  | FArray items :: stk' => PArrayNext (v :: items) stk'
  | FObject members key :: stk' => PObjectNext ((key, v) :: members) stk'
  end.

Definition begin_value (stk : list frame) (t : token) : option pstate :=
  match t with
  | TNull => Some (complete JNull stk)
  | TTrue => Some (complete (JBool true) stk)
  | TFalse => Some (complete (JBool false) stk)
  | TNumber literal => Some (complete (JNumber literal) stk)
  | TString raw => Some (complete (JString (unquote raw)) stk)
  | TLBracket =>
      if (N.of_nat (length stk) <? maxNestingDepth)%N then Some (PArrayOpen stk) else None
  | TLBrace =>
      if (N.of_nat (length stk) <? maxNestingDepth)%N then Some (PObjectOpen stk) else None
  | _ => None
  end.

Definition parse_step (st : pstate) (t : token) : option pstate :=
  match st, t with
  | PValue stk, _ => begin_value stk t
  | PArrayOpen stk, TRBracket => Some (complete (JArray []) stk)
  | PArrayOpen stk, _ => begin_value (FArray [] :: stk) t
  | PArrayNext items stk, TComma => Some (PValue (FArray items :: stk))
  | PArrayNext items stk, TRBracket => Some (complete (JArray (reverse items)) stk)
  | PObjectOpen stk, TRBrace => Some (complete (JObject []) stk)
  | PObjectOpen stk, TString raw => Some (PObjectColon [] (unquote raw) stk)
  | PObjectKey members stk, TString raw => Some (PObjectColon members (unquote raw) stk)
  | PObjectColon members key stk, TColon => Some (PValue (FObject members key :: stk))
  | PObjectNext members stk, TComma => Some (PObjectKey members stk)
  | PObjectNext members stk, TRBrace => Some (complete (JObject (reverse members)) stk)
  | _, _ => None
  end.

Fixpoint parse_tokens (st : pstate) (ts : list token) : option value :=
  match ts with
  | [] => match st with PDone v => Some v | _ => None end
  | t :: ts' => st' ← parse_step st t; parse_tokens st' ts'
  end.

(** [checkValid] and the scan of the decoder in one: the value the text
    denotes, [None] when the text is not JSON. *)
Definition parse (data : string) : option value :=
  ts ← lex LStart data; parse_tokens (PValue []) ts.

(** *** Decoding into [map[string]string] *)

(** A value stored into a string element: a string is stored, null
    leaves the zero value, anything else is a type error. *)
Definition store_string (v : value) : string * option error :=
  match v with
  | JString s => (s, None)
  | JNull => (EmptyString, None)
  | JBool _ => (EmptyString, Some (UnmarshalTypeError "bool"))
  | JNumber _ => (EmptyString, Some (UnmarshalTypeError "number"))
  | JArray _ => (EmptyString, Some (UnmarshalTypeError "array"))
  | JObject _ => (EmptyString, Some (UnmarshalTypeError "object"))
  end.

(** [saveError] keeps the first error. *)
Definition saveError (saved err : option error) : option error :=
  match saved with
  | Some _ => saved
  | None => err
  end.

(** The members of an object are stored in order, a later one over an
    earlier one of the same key; a member of the wrong type is stored as
    the empty string and decoding goes on. *)
Fixpoint object (members : list (string * value)) (m : gmap string string)
    (saved : option error) : gmap string string * option error :=
  match members with
  | [] => (m, saved)
  | (key, v) :: rest =>
      let '(elem, err) := store_string v in
      object rest (<[key := elem]> m) (saveError saved err)
  end.

(** [json.Unmarshal(data, &v)] for [v] a non-nil [map[string]string]:
    the map afterwards and the error.  The nil map that a JSON null
    leaves reads as the empty one. *)
Definition Unmarshal (data : string) (v : gmap string string)
    : gmap string string * option error :=
  match parse data with
  | None => (v, Some SyntaxError)
  | Some JNull => (∅, None)
  | Some (JObject members) => object members v None
  | Some (JArray _) => (v, Some (UnmarshalTypeError "array"))
  | Some (JString _) => (v, Some (UnmarshalTypeError "string"))
  | Some (JNumber _) => (v, Some (UnmarshalTypeError "number"))
  | Some (JBool _) => (v, Some (UnmarshalTypeError "bool"))
  end.
End json.

(** ** package os *)

Module os.
Fixpoint has_byte (p : ascii → bool) (s : string) : bool :=
  match s with
  | EmptyString => false
  | String c s' => p c || has_byte p s'
  end.

(** What [syscall.Setenv] refuses (on Unix): an empty key, a key with
    an equals sign or a NUL, a value with a NUL. *)
Definition setenv_refused (key value : string) : bool :=
  match key with EmptyString => true | String _ _ => false end
  || has_byte (λ c, is_byte c "=" || is_byte c Ascii.zero) key
  || has_byte (λ c, is_byte c Ascii.zero) value.

(** [os.Setenv(key, value)] *)
Definition Setenv (key value : string) : Go (option error) := λ w,
  if setenv_refused key value then (Returned (Some (SyscallError "setenv" EINVAL)), w)
  else (Returned None,
        {| stdout := stdout w; environ := <[key := value]> (environ w);
           sent := sent w; files := files w |}).

(** [os.Open(path)]: the file or the error, never both. *)
Definition Open (path : string) : Go (File + error) := λ w,
  (Returned (files w path), w).

(** [file.Read(buffer)] on a fresh buffer of [n] zero bytes: the buffer
    afterwards.  The count and the error of the read are dropped by the
    caller. *)
Definition Read_into (f : File) (n : nat) : string :=
  let data := String.substring 0 n (Read f n) in
  data +:+ zeros (n - String.length data).
End os.

(** The order in which a [range] over a map visits its entries is chosen by
    the runtime, anew for each loop: any enumeration of the entries. *)
Record MapOrder := {
  range : gmap string string → list (string * string);
  range_perm : ∀ m, range m ≡ₚ map_to_list m
}.

(** ** The package, [AwsInterface] family (part_002; main.go and part_000
    hold the same bodies for the methods they have) *)

Module AwsInterface.
Import secretsmanager sqs s3.

(** AWS is a wrapper for a real aws sdk session. *)
Record AWS := {
  Session : ptr session.Session;
  SecretsManager : secretsmanager.SecretsManager;
  SQS : sqs.SQS;
  S3 : s3.S3
}.

Definition GetSecret (a : AWS) (secretName : string)
    : Go (gmap string string * option error) :=
  let config : gmap string string := ∅ in
  let ctx := context_WithTimeout context_Background 10 in
  let input := {| SecretId := aws_String secretName;
                  VersionStage := aws_String "AWSCURRENT" |} in
  send (ReqGetSecretValue ctx input);;
  let '(result, err) := GetSecretValueWithContext (SecretsManager a) ctx input in
  if err is Some e then mret (config, Some e) else
  result ← deref result;
  (* Depending on whether the secret is a string or binary, one of these
     fields will be populated. *)
  '(secretString, decodedBinarySecret) ←
    (if SecretString result is Some s then mret (s, EmptyString)
     else
       let '(decodedBinarySecretBytes, len, err) :=
         base64.Decode (SecretBinary result) in
       (if err is Some e
        then fmt.Println [AString "Base64 Decode Error:"; AError e]
        else mret ());;
       let decodedBinarySecret := String.substring 0 len decodedBinarySecretBytes in
       fmt.Println [AString decodedBinarySecret];;
       mret (EmptyString, decodedBinarySecret));
  let '(config, _) := json.Unmarshal secretString config in
  mret (config, None).

(** [config[value]]: the zero value for a key that is absent. *)
Definition map_index (config : gmap string string) (key : string) : string :=
  default EmptyString (config !! key).

(** GetSingleSecret obtains a single secret from secretmanager without
    having to fetch all the secrets *)
Definition GetSingleSecret (a : AWS) (secretName value : string)
    : Go (string * option error) :=
  let config : gmap string string := ∅ in
  let ctx := context_WithTimeout context_Background 10 in
  let input := {| SecretId := aws_String secretName;
                  VersionStage := aws_String "AWSCURRENT" |} in
  send (ReqGetSecretValue ctx input);;
  let '(result, err) := GetSecretValueWithContext (SecretsManager a) ctx input in
  if err is Some e then mret (map_index config value, Some e) else
  result ← deref result;
  (* Depending on whether the secret is a string or binary, one of these
     fields will be populated. *)
  '(secretString, decodedBinarySecret) ←
    (if SecretString result is Some s then mret (s, EmptyString)
     else
       let '(decodedBinarySecretBytes, len, err) :=
         base64.Decode (SecretBinary result) in
       (if err is Some e
        then fmt.Println [AString "Base64 Decode Error:"; AError e]
        else mret ());;
       let decodedBinarySecret := String.substring 0 len decodedBinarySecretBytes in
       fmt.Println [AString decodedBinarySecret];;
       mret (EmptyString, decodedBinarySecret));
  let '(config, _) := json.Unmarshal secretString config in
  mret (map_index config value, None).

(** The loop of SetSecretToEnvironmentVariables over the entries in the
    order the runtime chose. *)
Fixpoint setenv_all (entries : list (string * string)) : Go (option error) :=
  match entries with
  | [] => mret None
  | (key, value) :: rest =>
      err ← os.Setenv key value;
      if err is Some e then mret (Some e) else setenv_all rest
  end.

(** SetSecretToEnvironmentVariables set the secret environment variable *)
Definition SetSecretToEnvironmentVariables (order : MapOrder) (a : AWS)
    (secretName : string) : Go (option error) :=
  '(config, err) ← GetSecret a secretName;
  if err is Some e then mret (Some e) else
  setenv_all (range order config).

(** GetQueueUrl obtains a SQS url *)
Definition GetQueueUrl (a : AWS) (v : string) : Go string :=
  let input := {| QueueName := aws_String v |} in
  send (ReqGetQueueUrl input);;
  let '(result, err) := sqs.GetQueueUrl (SQS a) input in
  (if err is Some e then fmt.Println [AError e] else mret ());;
  result ← deref result;
  deref (QueueUrl result).

(** SendStringMessageToSqs enqueue a message to AWS SQS Queue *)
Definition SendStringMessageToSqs (a : AWS) (payload qURL : string)
    : Go (ptr string * option error) :=
  let input := {| MessageBody := aws_String payload;
                  MessageAttributes := ∅;
                  QueueUrl_in := Some qURL |} in
  send (ReqSendMessage input);;
  let '(result, err) := SendMessage (SQS a) input in
  if err is Some e then mret (None, Some e) else
  result ← deref result;
  let err :=
    if MessageId result is None
    then Some (errors.New ("Message was not sent. Payload" +:+ payload))
    else err in
  mret (MessageId result, err).

(** SendStringMessageWithAttributesToSqs enqueue a message via SQS, but
    also you can set the message attributes *)
Definition SendStringMessageWithAttributesToSqs (a : AWS) (payload qURL : string)
    (attributes : gmap string scalar) : Go (ptr string * option error) :=
  (* convert the attribute map to aws format *)
  let messageAttributes :=
    (λ v, {| DataType := aws_String "String";
             StringValue := aws_String (fmt.Sprintf_s v) |}) <$> attributes in
  let input := {| MessageBody := aws_String payload;
                  MessageAttributes := messageAttributes;
                  QueueUrl_in := Some qURL |} in
  send (ReqSendMessage input);;
  let '(result, err) := SendMessage (SQS a) input in
  if err is Some e then mret (None, Some e) else
  result ← deref result;
  let err :=
    if MessageId result is None
    then Some (errors.New ("Message was not sent. Payload" +:+ payload))
    else err in
  mret (MessageId result, err).

(** The block "Clean up the bucket name" of UploadFileToS3. *)
Definition cleanedUpBucketName (bucketName : string) : Go string :=
  if Strings.Contains bucketName ":" then
    let bucketParts := Strings.Split bucketName ":" in
    index bucketParts (Z.of_nat (length bucketParts) - 1)
  else mret bucketName.

(** UploadFileToS3 Upload a file to S3 *)
Definition UploadFileToS3 (a : AWS)
    (path bucketName destinationName contentType : string) : Go (option error) :=
  opened ← os.Open path;
  match opened with
  | inr err => mret (Some err)
  | inl file =>
      (* Get the file metadata *)
      fileInfo ← deref (Stat file);
      let size := Size fileInfo in
      (if decide (size < 0)%Z then throw LenOutOfRange else mret ());;
      let buffer := os.Read_into file (Z.to_nat size) in
      (* Clean up the bucket name *)
      cleanedUpBucketName ← cleanedUpBucketName bucketName;
      let ctx := context_WithTimeout context_Background 10 in
      let input := {| Bucket := aws_String cleanedUpBucketName;
                      Key := aws_String destinationName;
                      ACL := aws_String "private";
                      Body := buffer;
                      ContentLength := aws_Int64 size;
                      ContentType := aws_String contentType;
                      ContentDisposition := aws_String "attachment";
                      ServerSideEncryption := aws_String "AES256" |} in
      send (ReqPutObject ctx input);;
      let '(_, err) := PutObjectWithContext (S3 a) ctx input in
      mret err
  end.
End AwsInterface.

(** ** The package, [AwsResources] family (part_003; part_001 holds the
    same GrabSecret) *)

Module AwsResources.
Import secretsmanager.

(** AWS - wrapper for aws sdk session. *)
Record AWS := {
  Session : ptr session.Session;
  SecretsManager : secretsmanager.SecretsManager
}.

(** GrabSecret gets a secret from the AWS secrets manager *)
Definition GrabSecret (a : AWS) (secretName : string)
    : Go (gmap string string * option error) :=
  let config : gmap string string := ∅ in
  let input := {| SecretId := aws_String secretName;
                  VersionStage := aws_String "AWSCURRENT" |} in
  let ctx := context_WithTimeout context_Background 10 in
  send (ReqGetSecretValue ctx input);;
  let '(result, err) := GetSecretValueWithContext (SecretsManager a) ctx input in
  if err is Some e then mret (config, Some e) else
  result ← deref result;
  match SecretString result with
  | Some s =>
      let secretString := s in
      let '(config, err) := json.Unmarshal secretString config in
      if err is Some e then mret (config, Some e) else mret (config, None)
  | None =>
      let '(decodedBinarySecretBytes, _, err) := base64.Decode (SecretBinary result) in
      if err is Some e then mret (config, Some e) else
      let '(config, err) := json.Unmarshal decodedBinarySecretBytes config in
      if err is Some e then mret (config, Some e) else mret (config, None)
  end.

Fixpoint setenv_all (entries : list (string * string)) : Go (option error) :=
  match entries with
  | [] => mret None
  | (key, value) :: rest =>
      err ← os.Setenv key value;
      if err is Some e then mret (Some e) else setenv_all rest
  end.

Definition SetSecretToEnvironmentVariables (order : MapOrder) (a : AWS)
    (secretName : string) : Go (option error) :=
  '(config, err) ← GrabSecret a secretName;
  if err is Some e then mret (Some e) else
  setenv_all (range order config).
End AwsResources.

(** * Specification-side definitions *)

(** The provider's answer to the one request the secret readers issue: the
    current version of [secretName], under a deadline of ten seconds. *)
Definition answer (sm : secretsmanager.SecretsManager) (secretName : string)
    : ptr secretsmanager.GetSecretValueOutput * option error :=
  secretsmanager.GetSecretValueWithContext sm
    (context_WithTimeout context_Background 10)
    {| secretsmanager.SecretId := aws_String secretName;
       secretsmanager.VersionStage := aws_String "AWSCURRENT" |}.

(** [eff] is [name] when [name] has no colon, and otherwise what follows
    the last colon of [name]. *)
Definition after_last_colon (name eff : string) : Prop :=
  Strings.Contains eff ":" = false ∧
  (eff = name ∨ ∃ pre, name = pre +:+ ":" +:+ eff).

(** The process after a request has left it, and after a line was printed. *)
Definition after_send (r : request) (w : World) : World := (send r w).2.
Definition after_print (args : list any) (w : World) : World := (fmt.Println args w).2.

(** The request for the current version of [secretName]. *)
Definition secret_request (secretName : string) : request :=
  ReqGetSecretValue (context_WithTimeout context_Background 10)
    {| secretsmanager.SecretId := aws_String secretName;
       secretsmanager.VersionStage := aws_String "AWSCURRENT" |}.

(** What the binary branch of GetSecret prints: the decoding error, if
    any, and the bytes decoded. *)
Definition binary_lines (binary : string) : list (list any) :=
  let '(decoded, len, err) := base64.Decode binary in
  (if err is Some e then [[AString "Base64 Decode Error:"; AError e]] else [])
  ++ [[AString (String.substring 0 len decoded)]].

Definition after_lines (lines : list (list any)) (w : World) : World :=
  {| stdout := stdout w ++ lines; environ := environ w; sent := sent w;
     files := files w |}.

(** The environment after the entries were set, one after the other. *)
Definition set_entries (entries : list (string * string)) (env : gmap string string)
    : gmap string string :=
  foldl (λ env kv, <[kv.1 := kv.2]> env) env entries.

Definition with_environ (env : gmap string string) (w : World) : World :=
  {| stdout := stdout w; environ := env; sent := sent w; files := files w |}.

(** [os.Setenv] accepts the entry. *)
Definition accepted (kv : string * string) : Prop := os.setenv_refused kv.1 kv.2 = false.

(** A secret of five entries; the value of TOKEN holds a NUL. *)
Definition five_entries : string :=
  text "{'HOST':'db','USER':'app','TOKEN':'a\u0000b','PORT':'5432','MODE':'prod'}".

(** The text [s] is a JSON object whose members are the [entries], each
    value a string, in any order. *)
Definition json_object_of (s : string) (entries : list (string * string)) : Prop :=
  ∃ members,
    json.parse s = Some (json.JObject members)
    ∧ members ≡ₚ (prod_map id json.JString <$> entries).

(** The deadline of the calls that carry a context. *)
Definition ten_seconds : Context := context_WithTimeout context_Background 10.

(** ** Concrete providers and processes, for the examples *)

Definition secrets_answering
    (ans : ptr secretsmanager.GetSecretValueOutput * option error)
    : secretsmanager.SecretsManager :=
  {| secretsmanager.GetSecretValueWithContext := λ _ _, ans |}.

Definition sqs_answering
    (url : ptr sqs.GetQueueUrlOutput * option error)
    (msg : ptr sqs.SendMessageOutput * option error) : sqs.SQS :=
  {| sqs.GetQueueUrl := λ _, url; sqs.SendMessage := λ _, msg |}.

Definition s3_answering (put : ptr s3.PutObjectOutput * option error) : s3.S3 :=
  {| s3.PutObjectWithContext := λ _ _, put |}.

(** The session ConstructAWS and StructureAWS open. *)
Definition us_east_1 : session.Session := {| session.Region := aws_String "us-east-1" |}.

(** A provider where everything succeeds, but for the answers given. *)
Definition aws_answering
    (secret : ptr secretsmanager.GetSecretValueOutput * option error)
    (url : ptr sqs.GetQueueUrlOutput * option error)
    (msg : ptr sqs.SendMessageOutput * option error) : AwsInterface.AWS :=
  {| AwsInterface.Session := Some us_east_1;
     AwsInterface.SecretsManager := secrets_answering secret;
     AwsInterface.SQS := sqs_answering url msg;
     AwsInterface.S3 := s3_answering (Some {| s3.ETag := None |}, None) |}.

Definition string_secret (s : string) : ptr secretsmanager.GetSecretValueOutput * option error :=
  (Some {| secretsmanager.SecretString := Some s;
           secretsmanager.SecretBinary := EmptyString |}, None).

Definition binary_secret (b : string) : ptr secretsmanager.GetSecretValueOutput * option error :=
  (Some {| secretsmanager.SecretString := None;
           secretsmanager.SecretBinary := b |}, None).

Definition a_queue : ptr sqs.GetQueueUrlOutput * option error :=
  (Some {| sqs.QueueUrl := Some "https://sqs.us-east-1.amazonaws.com/1/jobs" |}, None).

Definition a_message : ptr sqs.SendMessageOutput * option error :=
  (Some {| sqs.MessageId := Some "5fea7756-0ea4-451a-a703-a558b933e274" |}, None).

Definition aws_with_secret
    (secret : ptr secretsmanager.GetSecretValueOutput * option error) : AwsInterface.AWS :=
  aws_answering secret a_queue a_message.

Definition resources_with_secret
    (secret : ptr secretsmanager.GetSecretValueOutput * option error) : AwsResources.AWS :=
  {| AwsResources.Session := Some us_east_1;
     AwsResources.SecretsManager := secrets_answering secret |}.

(** A file of five bytes under the name report.txt, and nothing else. *)
Definition report : File :=
  {| Stat := Some {| Size := 5 |}; Read := λ n, String.substring 0 n "hello" |}.

Definition fresh : World :=
  {| stdout := []; environ := ∅; sent := [];
     files := λ path, if decide (path = "report.txt") then inl report
                      else inr (PathError "open" path) |}.

(** The runtime that visits the entries of a map in the order of
    [map_to_list]. *)
Definition in_order : MapOrder :=
  {| range := map_to_list; range_perm := λ m, reflexivity (map_to_list m) |}.

(** ** Definitions for the properties beyond the claims *)

(** A state of the scanner whose pending keyword holds no NUL byte; the
    keywords are true, false and null, so every state the scanner reaches
    is one. *)
Definition keyword_without_NUL (st : json.lstate) : Prop :=
  match st with
  | json.LLit rest _ => os.has_byte (λ c, is_byte c Ascii.zero) rest = false
  | _ => True
  end.

(** A file whose [Stat] fails, and a file of eight bytes of which a
    [Read] delivers five. *)
Definition unreadable : File := {| Stat := None; Read := λ _, EmptyString |}.

Definition short_read : File :=
  {| Stat := Some {| Size := 8 |}; Read := λ n, String.substring 0 n "hello" |}.

(** The process [fresh] with one more file. *)
Definition fresh_with (name : string) (f : File) : World :=
  {| stdout := []; environ := ∅; sent := [];
     files := λ path, if decide (path = name) then inl f else files fresh path |}.

(** A provider error, as after a timeout. *)
Definition timed_out : error := ProviderError "RequestCanceled".

(** * Theorems *)

(** Stepping through the monad. *)
Ltac go_simpl :=
  repeat (progress (unfold mbind, Go_bind, mret, Go_ret, send, fmt.Println, deref,
                    throw, os.Open; cbn beta iota zeta)).

(** ** package strings *)

Lemma append_empty s : EmptyString +:+ s = s.
Proof. reflexivity. Qed.

Lemma append_String c s t : String c s +:+ t = String c (s +:+ t).
Proof. reflexivity. Qed.

Ltac string_simpl :=
  repeat (rewrite append_empty in * || rewrite append_String in * ).

Lemma Contains_cons c s :
  Strings.Contains (String c s) ":" = is_byte c ":" || Strings.Contains s ":".
Proof.
  cbn [Strings.Contains String.prefix]. unfold is_byte.
  destruct (ascii_dec ":" c) as [<-|Hne].
  - by destruct s.
  - destruct (Ascii.eqb_spec c ":") as [->|_]; [done|].
    by destruct s.
Qed.

Lemma Contains_app_colon pre suf :
  Strings.Contains (pre +:+ ":" +:+ suf) ":" = true.
Proof.
  induction pre as [|c pre IH]; string_simpl.
  - by rewrite Contains_cons.
  - rewrite Contains_cons, IH. by destruct (is_byte c ":").
Qed.

(** A string that contains a colon has a last one. *)
Lemma Contains_last_colon s :
  Strings.Contains s ":" = true →
  ∃ pre suf, s = pre +:+ ":" +:+ suf ∧ Strings.Contains suf ":" = false.
Proof.
  induction s as [|c s IH]; [done|].
  rewrite Contains_cons. intros H.
  destruct (Strings.Contains s ":") eqn:Hs.
  - destruct (IH eq_refl) as (pre & suf & -> & Hsuf).
    by exists (String c pre), suf.
  - rewrite orb_false_r in H. apply Ascii.eqb_eq in H as ->.
    by exists EmptyString, s.
Qed.

Lemma Split_nonempty s sep : Strings.Split s sep ≠ [].
Proof.
  destruct s as [|c s]; [done|]. cbn.
  destruct (Ascii.eqb c sep); [done|].
  by destruct (Strings.Split s sep).
Qed.

Lemma Split_without s :
  Strings.Contains s ":" = false → Strings.Split s ":" = [s].
Proof.
  induction s as [|c s IH]; [done|].
  rewrite Contains_cons. intros [Hc Hs]%orb_false_elim.
  cbn. unfold is_byte in Hc. rewrite Hc, (IH Hs). done.
Qed.

(** The pieces of [pre:suf] are the pieces of [pre], then those of [suf]. *)
Lemma Split_app pre suf sep :
  Strings.Split (pre +:+ String sep suf) sep
  = Strings.Split pre sep ++ Strings.Split suf sep.
Proof.
  induction pre as [|c pre IH]; string_simpl; cbn.
  - by rewrite Ascii.eqb_refl.
  - destruct (Ascii.eqb c sep); [by rewrite IH|].
    rewrite IH. pose proof (Split_nonempty pre sep).
    by destruct (Strings.Split pre sep).
Qed.

Lemma index_last {A} (l : list A) (x : A) w :
  index (l ++ [x]) (Z.of_nat (length (l ++ [x])) - 1) w = (Returned x, w).
Proof.
  unfold index. rewrite length_app. cbn [length].
  case_decide; [|lia].
  replace (Z.to_nat (Z.of_nat (length l + 1) - 1)) with (length l + 0)%nat by lia.
  by rewrite lookup_app_r, Nat.add_0_r, Nat.sub_diag by lia.
Qed.

(** [strings.Contains(s, ":")] holds exactly when a colon occurs in [s]. *)
Lemma Contains_colon_iff s :
  Strings.Contains s ":" = true ↔ ∃ pre suf, s = pre +:+ ":" +:+ suf.
Proof.
  split.
  - intros H. destruct (Contains_last_colon s H) as (pre & suf & -> & _). eauto.
  - intros (pre & suf & ->). apply Contains_app_colon.
Qed.

Lemma length_append s t :
  String.length (s +:+ t) = (String.length s + String.length t)%nat.
Proof. induction s as [|c s IH]; string_simpl; cbn; [done|]. by rewrite IH. Qed.

Lemma length_zeros n : String.length (zeros n) = n.
Proof. induction n as [|n IH]; cbn; [done|]. by rewrite IH. Qed.

Lemma substring_append s t :
  String.substring 0 (String.length s) (s +:+ t) = s.
Proof. induction s as [|c s IH]; string_simpl; cbn; [by destruct t|]. by rewrite IH. Qed.

(** ** package encoding/base64 *)

Lemma skipNewlines_length s :
  (String.length (base64.skipNewlines s) ≤ String.length s)%nat.
Proof.
  induction s as [|c s IH]; cbn; [done|].
  destruct (base64.isNewline c); cbn; lia.
Qed.

Lemma quantum_length dbuf :
  String.length (base64.quantum dbuf)
  = (if decide (2 ≤ length dbuf ≤ 4)%nat then length dbuf - 1 else 0)%nat.
Proof.
  unfold base64.quantum.
  destruct dbuf as [|? [|? [|? [|? [|? ?]]]]]; cbn [length]; case_decide;
    try lia; reflexivity.
Qed.

Ltac more_input :=
  cbn [String.length]; apply Nat.mul_le_mono_r, Nat.Div0.div_le_mono; lia.

(** Four bytes of the source, the sextets in hand included, give at most
    three bytes of output. *)
Lemma decode_written src :
  ∀ dbuf, (length dbuf ≤ 3)%nat →
    (String.length (base64.decode src dbuf).1
     ≤ (String.length src + length dbuf) / 4 * 3)%nat.
Proof.
  induction src as [|c rest IH]; intros dbuf Hj; cbn [base64.decode].
  - destruct dbuf; cbn; lia.
  - destruct (base64.decodeMap c) as [d|].
    + destruct dbuf as [|d0 [|d1 [|d2 [|? ?]]]]; cbn [length] in Hj; try lia.
      * etransitivity; [apply IH; cbn; lia|]. cbn [length app]. more_input.
      * etransitivity; [apply IH; cbn; lia|]. cbn [length app]. more_input.
      * etransitivity; [apply IH; cbn; lia|]. cbn [length app]. more_input.
      * specialize (IH []). destruct (base64.decode rest []) as [out err].
        cbn [fst length app String.length] in *. rewrite length_append.
        change (String.length (base64.quantum _)) with 3%nat.
        replace (S (String.length rest) + 3)%nat
          with (String.length rest + 0 + 1 * 4)%nat by lia.
        rewrite Nat.div_add by done. lia.
    + destruct (base64.isNewline c).
      { etransitivity; [by apply IH|]. more_input. }
      destruct (negb (is_byte c "=")); [cbn; lia|].
      destruct dbuf as [|d0 [|d1 [|d2 [|? ?]]]]; cbn [length] in Hj; try lia;
        try (cbn; lia).
      * pose proof (skipNewlines_length rest) as Hskip.
        destruct (base64.skipNewlines rest) as [|c' rest']; [cbn; lia|].
        destruct (is_byte c' "="); [|cbn; lia].
        unfold base64.trailer. cbn [fst].
        change (String.length (base64.quantum _)) with 1%nat.
        cbn [String.length length] in *.
        assert (1 ≤ (S (String.length rest) + 2) / 4)%nat; [|lia].
        apply Nat.div_le_lower_bound; lia.
      * unfold base64.trailer. cbn [fst].
        change (String.length (base64.quantum _)) with 2%nat.
        cbn [String.length length].
        assert (1 ≤ (S (String.length rest) + 3) / 4)%nat; [|lia].
        apply Nat.div_le_lower_bound; lia.
Qed.

(** The destination [Decode] is given is large enough: the buffer after
    the call has [DecodedLen(len(src))] bytes, the decoded ones first. *)
Lemma Decode_buffer src :
  let '(buffer, n, _) := base64.Decode src in
  String.length buffer = base64.DecodedLen (String.length src)
  ∧ (n ≤ base64.DecodedLen (String.length src))%nat
  ∧ String.substring 0 n buffer = (base64.decode src []).1.
Proof.
  unfold base64.Decode, base64.DecodedLen.
  pose proof (decode_written src [] ltac:(cbn; lia)) as H.
  destruct (base64.decode src []) as [out err]. cbn [fst snd length] in *.
  rewrite Nat.add_0_r in H. rewrite length_append, length_zeros, substring_append.
  repeat split; lia.
Qed.

(** ** The bucket name *)

Lemma cleanedUpBucketName_without name w :
  Strings.Contains name ":" = false →
  AwsInterface.cleanedUpBucketName name w = (Returned name, w).
Proof. intros H. unfold AwsInterface.cleanedUpBucketName. by rewrite H. Qed.

Lemma cleanedUpBucketName_with pre suf w :
  Strings.Contains suf ":" = false →
  AwsInterface.cleanedUpBucketName (pre +:+ ":" +:+ suf) w = (Returned suf, w).
Proof.
  intros H. unfold AwsInterface.cleanedUpBucketName.
  rewrite Contains_app_colon. string_simpl.
  rewrite Split_app, (Split_without _ H). apply index_last.
Qed.

Lemma cleanedUpBucketName_spec name eff w :
  after_last_colon name eff →
  AwsInterface.cleanedUpBucketName name w = (Returned eff, w).
Proof.
  intros [H [->|[pre ->]]].
  - by apply cleanedUpBucketName_without.
  - by apply cleanedUpBucketName_with.
Qed.

Lemma after_last_colon_total name : ∃ eff, after_last_colon name eff.
Proof.
  destruct (Strings.Contains name ":") eqn:H.
  - destruct (Contains_last_colon _ H) as (pre & suf & -> & Hsuf).
    exists suf. split; [done|]. right. by exists pre.
  - exists name. split; [done|]. by left.
Qed.

(** ** UploadFileToS3 *)

(** C7: the bucket name is cleaned up to itself if it has no colon and
    to what follows its last colon otherwise; when the file opens,
    UploadFileToS3 sends one PutObject request, whose bucket is the name
    cleaned up, and returns the provider's error; the name
    arn:aws:s3:::my-bucket is cleaned up to my-bucket. *)
Theorem UploadFileToS3_bucket_after_last_colon :
  (∀ (bucketName eff : string) (w : World),
     after_last_colon bucketName eff →
     AwsInterface.cleanedUpBucketName bucketName w = (Returned eff, w))
  ∧ (∀ (a : AwsInterface.AWS) (path bucketName destinationName contentType eff : string)
     (w : World) (file : File) (info : FileInfo),
     files w path = inl file → Stat file = Some info → (0 ≤ Size info)%Z →
     after_last_colon bucketName eff →
     let input :=
       {| s3.Bucket := Some eff;
          s3.Key := Some destinationName;
          s3.ACL := Some "private";
          s3.Body := os.Read_into file (Z.to_nat (Size info));
          s3.ContentLength := Some (Size info);
          s3.ContentType := Some contentType;
          s3.ContentDisposition := Some "attachment";
          s3.ServerSideEncryption := Some "AES256" |} in
     AwsInterface.UploadFileToS3 a path bucketName destinationName contentType w
     = (Returned (s3.PutObjectWithContext (AwsInterface.S3 a) ten_seconds input).2,
        after_send (ReqPutObject ten_seconds input) w))
  ∧ (∀ w, AwsInterface.cleanedUpBucketName "arn:aws:s3:::my-bucket" w
          = (Returned "my-bucket", w)).
Proof.
  split; [|split].
  - intros bucketName eff w. apply cleanedUpBucketName_spec.
  - intros a path bucketName destinationName contentType eff w file info
      Hfile Hstat Hsize Heff input.
    unfold AwsInterface.UploadFileToS3. go_simpl.
    rewrite Hfile, Hstat. go_simpl. case_decide; [lia|]. go_simpl.
    rewrite (cleanedUpBucketName_spec _ _ _ Heff). go_simpl.
    fold ten_seconds. unfold aws_String, aws_Int64. fold input.
    by destruct (s3.PutObjectWithContext _ _ _).
  - intros w. apply (cleanedUpBucketName_with "arn:aws:s3::" "my-bucket"). reflexivity.
Qed.

(** An instance: report.txt goes to the bucket my-bucket. *)
Lemma UploadFileToS3_bucket_witness :
  AwsInterface.UploadFileToS3 (aws_with_secret (string_secret "{}")) "report.txt"
    "arn:aws:s3:::my-bucket" "2026/report.txt" "text/plain" fresh
  = (Returned None,
     after_send
       (ReqPutObject ten_seconds
          {| s3.Bucket := Some "my-bucket";
             s3.Key := Some "2026/report.txt";
             s3.ACL := Some "private";
             s3.Body := "hello";
             s3.ContentLength := Some 5%Z;
             s3.ContentType := Some "text/plain";
             s3.ContentDisposition := Some "attachment";
             s3.ServerSideEncryption := Some "AES256" |})
       fresh).
Proof.
  apply (proj1 (proj2 UploadFileToS3_bucket_after_last_colon)
           (aws_with_secret (string_secret "{}")) "report.txt" "arn:aws:s3:::my-bucket"
           "2026/report.txt" "text/plain" "my-bucket" fresh report {| Size := 5 |}).
  - reflexivity.
  - reflexivity.
  - simpl. lia.
  - split; [reflexivity|]. right. exists "arn:aws:s3::". reflexivity.
Defined.

(** C10: cleaning up a bucket name always succeeds, its result has no
    colon and is cleaned up to itself; a name that ends in a colon is
    cleaned up to the empty string. *)
Theorem cleanedUpBucketName_idempotent :
  ∀ (name : string) (w : World),
    (∃ eff,
       AwsInterface.cleanedUpBucketName name w = (Returned eff, w)
       ∧ Strings.Contains eff ":" = false
       ∧ AwsInterface.cleanedUpBucketName eff w = (Returned eff, w))
    ∧ AwsInterface.cleanedUpBucketName (name +:+ ":") w = (Returned EmptyString, w).
Proof.
  intros name w. split.
  - destruct (after_last_colon_total name) as [eff Heff].
    exists eff. split; [by apply cleanedUpBucketName_spec|].
    destruct Heff as [Hno _]. split; [done|].
    by apply cleanedUpBucketName_without.
  - apply (cleanedUpBucketName_with name EmptyString). reflexivity.
Qed.

(** ** The queue *)

(** GetQueueUrl returns only what an answer with a queue URL holds; the
    error of the provider changes nothing but the output. *)
Lemma GetQueueUrl_returns (a : AwsInterface.AWS) (v url : string) (w w' : World) :
  AwsInterface.GetQueueUrl a v w = (Returned url, w') →
  ∃ result,
    (sqs.GetQueueUrl (AwsInterface.SQS a) {| sqs.QueueName := Some v |}).1 = Some result
    ∧ sqs.QueueUrl result = Some url.
Proof.
  unfold AwsInterface.GetQueueUrl. go_simpl. unfold aws_String.
  destruct (sqs.GetQueueUrl _ _) as [[result|] err]; destruct err; go_simpl;
    try discriminate.
  all: destruct (sqs.QueueUrl result) as [u|] eqn:Hu; go_simpl; try discriminate.
  all: intros [= <- _]; by exists result.
Qed.

(** C2 (the code at the failing input): when the call fails and the
    response is nil or has no queue URL, as after a failed call of the
    SDK, GetQueueUrl prints the error and then panics on the nil pointer. *)
Theorem GetQueueUrl_provider_error_panics :
  ∀ (a : AwsInterface.AWS) (v : string) (w : World) result e,
    sqs.GetQueueUrl (AwsInterface.SQS a) {| sqs.QueueName := Some v |} = (result, Some e) →
    match result with
    | Some response => sqs.QueueUrl response = None
    | None => True
    end →
    AwsInterface.GetQueueUrl a v w
    = (Panicked NilDereference,
       after_print [AError e] (after_send (ReqGetQueueUrl {| sqs.QueueName := Some v |}) w)).
Proof.
  intros a v w result e Hcall Hnil.
  unfold AwsInterface.GetQueueUrl, aws_String. go_simpl. rewrite Hcall. go_simpl.
  destruct result as [response|]; go_simpl; [|done].
  by rewrite Hnil.
Qed.

(** An instance: the queue does not exist. *)
Lemma GetQueueUrl_provider_error_panics_witness :
  AwsInterface.GetQueueUrl
    (aws_answering (string_secret "{}")
       (Some {| sqs.QueueUrl := None |},
        Some (ProviderError "AWS.SimpleQueueService.NonExistentQueue"))
       a_message) "jobs" fresh
  = (Panicked NilDereference,
     after_print [AError (ProviderError "AWS.SimpleQueueService.NonExistentQueue")]
       (after_send (ReqGetQueueUrl {| sqs.QueueName := Some "jobs" |}) fresh)).
Proof.
  apply (GetQueueUrl_provider_error_panics
           (aws_answering (string_secret "{}")
              (Some {| sqs.QueueUrl := None |},
               Some (ProviderError "AWS.SimpleQueueService.NonExistentQueue"))
              a_message) "jobs" fresh
           (Some {| sqs.QueueUrl := None |})
           (ProviderError "AWS.SimpleQueueService.NonExistentQueue")).
  - reflexivity.
  - reflexivity.
Defined.

(** With an error and a queue URL both, the URL is returned and the
    caller never sees the error. *)
Lemma GetQueueUrl_provider_error_hidden (a : AwsInterface.AWS) (v : string) (w : World)
    response url e :
  sqs.GetQueueUrl (AwsInterface.SQS a) {| sqs.QueueName := Some v |}
  = (Some response, Some e) →
  sqs.QueueUrl response = Some url →
  AwsInterface.GetQueueUrl a v w
  = (Returned url,
     after_print [AError e] (after_send (ReqGetQueueUrl {| sqs.QueueName := Some v |}) w)).
Proof.
  intros Hcall Hurl.
  unfold AwsInterface.GetQueueUrl, aws_String. go_simpl. rewrite Hcall. go_simpl.
  by rewrite Hurl.
Qed.

(** C6: both senders return the provider's error when the call fails, and
    an error of their own making when the call succeeds with a response
    that has no message identifier. *)
Theorem SendStringMessage_errors :
  ∀ (a : AwsInterface.AWS) (payload qURL : string) (attributes : gmap string scalar)
    (w : World),
    let plain :=
      {| sqs.MessageBody := Some payload;
         sqs.MessageAttributes := ∅;
         sqs.QueueUrl_in := Some qURL |} in
    let attributed :=
      {| sqs.MessageBody := Some payload;
         sqs.MessageAttributes :=
           (λ v, {| sqs.DataType := Some "String";
                    sqs.StringValue := Some (fmt.Sprintf_s v) |}) <$> attributes;
         sqs.QueueUrl_in := Some qURL |} in
    let not_sent := errors.New ("Message was not sent. Payload" +:+ payload) in
    (∀ result e,
       sqs.SendMessage (AwsInterface.SQS a) plain = (result, Some e) →
       AwsInterface.SendStringMessageToSqs a payload qURL w
       = (Returned (None, Some e), after_send (ReqSendMessage plain) w))
    ∧ (∀ result,
       sqs.SendMessage (AwsInterface.SQS a) plain = (Some result, None) →
       sqs.MessageId result = None →
       AwsInterface.SendStringMessageToSqs a payload qURL w
       = (Returned (None, Some not_sent), after_send (ReqSendMessage plain) w))
    ∧ (∀ result e,
       sqs.SendMessage (AwsInterface.SQS a) attributed = (result, Some e) →
       AwsInterface.SendStringMessageWithAttributesToSqs a payload qURL attributes w
       = (Returned (None, Some e), after_send (ReqSendMessage attributed) w))
    ∧ (∀ result,
       sqs.SendMessage (AwsInterface.SQS a) attributed = (Some result, None) →
       sqs.MessageId result = None →
       AwsInterface.SendStringMessageWithAttributesToSqs a payload qURL attributes w
       = (Returned (None, Some not_sent), after_send (ReqSendMessage attributed) w)).
Proof.
  intros a payload qURL attributes w plain attributed not_sent.
  unfold AwsInterface.SendStringMessageToSqs,
    AwsInterface.SendStringMessageWithAttributesToSqs, aws_String.
  fold plain attributed. go_simpl.
  repeat split.
  - by intros result e ->.
  - intros result -> Hid. go_simpl. by rewrite Hid.
  - by intros result e ->.
  - intros result -> Hid. go_simpl. by rewrite Hid.
Qed.

(** An instance: the call succeeds and the response has no identifier. *)
Lemma SendStringMessage_errors_witness :
  AwsInterface.SendStringMessageToSqs
    (aws_answering (string_secret "{}") a_queue (Some {| sqs.MessageId := None |}, None))
    "hello" "https://sqs.us-east-1.amazonaws.com/1/jobs" fresh
  = (Returned (None, Some (errorString "Message was not sent. Payloadhello")),
     after_send
       (ReqSendMessage
          {| sqs.MessageBody := Some "hello";
             sqs.MessageAttributes := ∅;
             sqs.QueueUrl_in := Some "https://sqs.us-east-1.amazonaws.com/1/jobs" |})
       fresh).
Proof.
  apply (proj1 (proj2 (SendStringMessage_errors
           (aws_answering (string_secret "{}") a_queue (Some {| sqs.MessageId := None |}, None))
           "hello" "https://sqs.us-east-1.amazonaws.com/1/jobs" ∅ fresh))
           {| sqs.MessageId := None |}).
  - reflexivity.
  - reflexivity.
Defined.

(** ** Reading a secret: GetSecret and GetSingleSecret *)

Lemma GetSecret_provider_error (a : AwsInterface.AWS) (name : string) (w : World)
    result e :
  answer (AwsInterface.SecretsManager a) name = (result, Some e) →
  AwsInterface.GetSecret a name w
  = (Returned (∅, Some e), after_send (secret_request name) w).
Proof.
  unfold answer, AwsInterface.GetSecret. go_simpl. by intros ->.
Qed.

(** A string payload is handed to the JSON decoder, whose error is dropped. *)
Lemma GetSecret_string (a : AwsInterface.AWS) (name : string) (w : World) result s :
  answer (AwsInterface.SecretsManager a) name = (Some result, None) →
  secretsmanager.SecretString result = Some s →
  AwsInterface.GetSecret a name w
  = (Returned ((json.Unmarshal s ∅).1, None), after_send (secret_request name) w).
Proof.
  unfold answer, AwsInterface.GetSecret. go_simpl. intros -> Hs. go_simpl.
  rewrite Hs. go_simpl. by destruct (json.Unmarshal s ∅).
Qed.

Lemma Unmarshal_empty_text : json.Unmarshal EmptyString ∅ = (∅, Some SyntaxError).
Proof. reflexivity. Qed.

Lemma GetSecret_binary (a : AwsInterface.AWS) (name : string) (w : World) result :
  answer (AwsInterface.SecretsManager a) name = (Some result, None) →
  secretsmanager.SecretString result = None →
  AwsInterface.GetSecret a name w
  = (Returned (∅, None),
     after_lines (binary_lines (secretsmanager.SecretBinary result))
       (after_send (secret_request name) w)).
Proof.
  unfold answer, AwsInterface.GetSecret, binary_lines, after_lines. go_simpl.
  intros -> Hs. go_simpl. rewrite Hs.
  destruct (base64.Decode _) as [[decoded len] [e|]]; go_simpl;
    rewrite Unmarshal_empty_text; cbn [stdout environ sent files after_send snd send].
  - by rewrite <- app_assoc.
  - done.
Qed.

(** GetSingleSecret is GetSecret followed by the lookup of the field. *)
Lemma GetSingleSecret_GetSecret (a : AwsInterface.AWS) (name field : string) (w : World) :
  AwsInterface.GetSingleSecret a name field w
  = match AwsInterface.GetSecret a name w with
    | (Returned (config, err), w') =>
        (Returned (AwsInterface.map_index config field, err), w')
    | (Panicked p, w') => (Panicked p, w')
    end.
Proof.
  unfold AwsInterface.GetSingleSecret, AwsInterface.GetSecret. go_simpl.
  destruct (secretsmanager.GetSecretValueWithContext _ _ _) as [result [e|]];
    go_simpl; [done|].
  destruct result as [result|]; go_simpl; [|done].
  destruct (secretsmanager.SecretString result); go_simpl.
  - by destruct (json.Unmarshal _ _).
  - destruct (base64.Decode _) as [[decoded len] [e|]]; go_simpl;
      by destruct (json.Unmarshal _ _).
Qed.

(** ** Reading a secret: GrabSecret *)

Lemma GrabSecret_provider_error (a : AwsResources.AWS) (name : string) (w : World)
    result e :
  answer (AwsResources.SecretsManager a) name = (result, Some e) →
  AwsResources.GrabSecret a name w
  = (Returned (∅, Some e), after_send (secret_request name) w).
Proof.
  unfold answer, AwsResources.GrabSecret. go_simpl. by intros ->.
Qed.

Lemma GrabSecret_string (a : AwsResources.AWS) (name : string) (w : World) result s :
  answer (AwsResources.SecretsManager a) name = (Some result, None) →
  secretsmanager.SecretString result = Some s →
  AwsResources.GrabSecret a name w
  = (Returned (json.Unmarshal s ∅), after_send (secret_request name) w).
Proof.
  unfold answer, AwsResources.GrabSecret. go_simpl. intros -> Hs. go_simpl.
  rewrite Hs. by destruct (json.Unmarshal s ∅) as [config [e|]].
Qed.

(** On a binary payload GrabSecret decodes the whole destination buffer,
    the zero bytes after the decoded ones included. *)
Lemma GrabSecret_binary (a : AwsResources.AWS) (name : string) (w : World) result :
  answer (AwsResources.SecretsManager a) name = (Some result, None) →
  secretsmanager.SecretString result = None →
  AwsResources.GrabSecret a name w
  = (Returned
       (let '(buffer, _, err) := base64.Decode (secretsmanager.SecretBinary result) in
        if err is Some e then (∅, Some e) else json.Unmarshal buffer ∅),
     after_send (secret_request name) w).
Proof.
  unfold answer, AwsResources.GrabSecret. go_simpl. intros -> Hs. go_simpl.
  rewrite Hs. destruct (base64.Decode _) as [[buffer len] [e|]]; go_simpl; [done|].
  by destruct (json.Unmarshal buffer ∅) as [config [e|]].
Qed.

(** GrabSecret returns every failure of the two decoders to its caller. *)
Lemma GrabSecret_surfaces_decode_failures (a : AwsResources.AWS) (name : string)
    (w : World) result e :
  answer (AwsResources.SecretsManager a) name = (Some result, None) →
  match secretsmanager.SecretString result with
  | Some s => (json.Unmarshal s ∅).2 = Some e
  | None =>
      (base64.Decode (secretsmanager.SecretBinary result)).2 = Some e
      ∨ (base64.Decode (secretsmanager.SecretBinary result)).2 = None
        ∧ (json.Unmarshal (base64.Decode (secretsmanager.SecretBinary result)).1.1 ∅).2
          = Some e
  end →
  ∃ config, (AwsResources.GrabSecret a name w).1 = Returned (config, Some e).
Proof.
  intros Hans Hfail.
  destruct (secretsmanager.SecretString result) as [s|] eqn:Hs.
  - rewrite (GrabSecret_string _ _ _ _ _ Hans Hs). cbn [fst].
    destruct (json.Unmarshal s ∅) as [config err]. cbn in Hfail. subst err. eauto.
  - rewrite (GrabSecret_binary _ _ _ _ Hans Hs). cbn [fst].
    destruct (base64.Decode _) as [[buffer len] err]. cbn in Hfail.
    destruct Hfail as [->|[-> Hjson]]; [eauto|].
    destruct (json.Unmarshal buffer ∅) as [config err]. cbn in Hjson. subst err. eauto.
Qed.

(** ** The claims about the secret readers *)

Lemma Unmarshal_two_entries (s k1 v1 k2 v2 : string) :
  k1 ≠ k2 →
  json_object_of s [(k1, v1); (k2, v2)] →
  json.Unmarshal s ∅ = ({[ k1 := v1; k2 := v2 ]}, None).
Proof.
  intros Hne (members & Hparse & Hperm).
  unfold json.Unmarshal. rewrite Hparse.
  symmetry in Hperm. apply Permutation_length_2_inv in Hperm as [->| ->]; cbn.
  - by rewrite insert_insert_ne.
  - done.
Qed.

(** C4: on a string payload that is the JSON object {"A":"1","B":"2"},
    both GetSecret and GrabSecret return the bundle of exactly the entries
    A -> 1 and B -> 2, and no error. *)
Theorem secret_string_payload_two_entries :
  (∀ (a : AwsInterface.AWS) (name : string) (w : World) result s,
     answer (AwsInterface.SecretsManager a) name = (Some result, None) →
     secretsmanager.SecretString result = Some s →
     json_object_of s [("A", "1"); ("B", "2")] →
     (AwsInterface.GetSecret a name w).1
     = Returned ({[ "A" := "1"; "B" := "2" ]}, None))
  ∧ (∀ (a : AwsResources.AWS) (name : string) (w : World) result s,
     answer (AwsResources.SecretsManager a) name = (Some result, None) →
     secretsmanager.SecretString result = Some s →
     json_object_of s [("A", "1"); ("B", "2")] →
     (AwsResources.GrabSecret a name w).1
     = Returned ({[ "A" := "1"; "B" := "2" ]}, None)).
Proof.
  split; intros a name w result s Hans Hs Hjson.
  - rewrite (GetSecret_string _ _ _ _ _ Hans Hs).
    by rewrite (Unmarshal_two_entries s "A" "1" "B" "2").
  - rewrite (GrabSecret_string _ _ _ _ _ Hans Hs).
    by rewrite (Unmarshal_two_entries s "A" "1" "B" "2").
Qed.

(** An instance: the text as the claim writes it. *)
Lemma secret_string_payload_witness :
  (AwsInterface.GetSecret (aws_with_secret (string_secret (text "{'A':'1','B':'2'}")))
     "prod/app" fresh).1
  = Returned ({[ "A" := "1"; "B" := "2" ]}, None).
Proof.
  apply (proj1 secret_string_payload_two_entries
           (aws_with_secret (string_secret (text "{'A':'1','B':'2'}"))) "prod/app" fresh
           {| secretsmanager.SecretString := Some (text "{'A':'1','B':'2'}");
              secretsmanager.SecretBinary := EmptyString |}
           (text "{'A':'1','B':'2'}")).
  - reflexivity.
  - reflexivity.
  - exists [("A", json.JString "1"); ("B", json.JString "2")].
    split; reflexivity.
Defined.

(** The same object written with other spacing and the members swapped. *)
Lemma secret_string_payload_spaced :
  json_object_of (text " { 'B' : '2' , 'A' : '1' } ") [("A", "1"); ("B", "2")].
Proof.
  exists [("B", json.JString "2"); ("A", json.JString "1")].
  split; [reflexivity|]. apply perm_swap.
Qed.

(** C9: on a binary payload GetSecret prints the decoded bytes and decodes
    the empty text instead: it returns the empty bundle and no error, and
    GetSingleSecret the empty string and no error, whatever the payload. *)
Theorem GetSecret_binary_payload_ignored :
  ∀ (a : AwsInterface.AWS) (name field : string) (w : World) result,
    answer (AwsInterface.SecretsManager a) name = (Some result, None) →
    secretsmanager.SecretString result = None →
    let w' := after_lines (binary_lines (secretsmanager.SecretBinary result))
                (after_send (secret_request name) w) in
    AwsInterface.GetSecret a name w = (Returned (∅, None), w')
    ∧ AwsInterface.GetSingleSecret a name field w = (Returned (EmptyString, None), w').
Proof.
  intros a name field w result Hans Hs w'.
  pose proof (GetSecret_binary _ _ w _ Hans Hs) as Hget. fold w' in Hget.
  split; [done|]. by rewrite GetSingleSecret_GetSecret, Hget.
Qed.

(** An instance: the base64 text of {"A":"1","B":"2"} is printed, not decoded. *)
Lemma GetSecret_binary_payload_ignored_witness :
  AwsInterface.GetSecret (aws_with_secret (binary_secret "eyJBIjoiMSIsIkIiOiIyIn0=")) "prod/app" fresh
  = (Returned (∅, None),
     after_lines [[AString (text "{'A':'1','B':'2'}")]]
       (after_send (secret_request "prod/app") fresh))
  ∧ AwsInterface.GetSingleSecret (aws_with_secret (binary_secret "eyJBIjoiMSIsIkIiOiIyIn0="))
      "prod/app" "A" fresh
    = (Returned (EmptyString, None),
       after_lines [[AString (text "{'A':'1','B':'2'}")]]
         (after_send (secret_request "prod/app") fresh)).
Proof.
  apply (GetSecret_binary_payload_ignored
           (aws_with_secret (binary_secret "eyJBIjoiMSIsIkIiOiIyIn0=")) "prod/app" "A" fresh
           {| secretsmanager.SecretString := None;
              secretsmanager.SecretBinary := "eyJBIjoiMSIsIkIiOiIyIn0=" |}).
  - reflexivity.
  - reflexivity.
Defined.

(** C5: when the call to the provider succeeds and the bundle GetSecret
    decodes has no entry for the field, GetSingleSecret returns the empty
    string and no error. *)
Theorem GetSingleSecret_missing_field :
  ∀ (a : AwsInterface.AWS) (name field : string) (w w' : World) config err,
    (answer (AwsInterface.SecretsManager a) name).2 = None →
    AwsInterface.GetSecret a name w = (Returned (config, err), w') →
    config !! field = None →
    AwsInterface.GetSingleSecret a name field w = (Returned (EmptyString, None), w').
Proof.
  intros a name field w w' config err Hok Hget Hmissing.
  rewrite GetSingleSecret_GetSecret, Hget.
  unfold AwsInterface.map_index. rewrite Hmissing. cbn [default].
  destruct (answer _ _) as [result [e|]] eqn:Hans; [done|].
  destruct result as [result|].
  - destruct (secretsmanager.SecretString result) as [s|] eqn:Hs.
    + rewrite (GetSecret_string _ _ _ _ _ Hans Hs) in Hget. by injection Hget as _ <- _.
    + rewrite (GetSecret_binary _ _ _ _ Hans Hs) in Hget. by injection Hget as _ <- _.
  - unfold answer in Hans. unfold AwsInterface.GetSecret in Hget.
    go_simpl. rewrite Hans in Hget. discriminate.
Qed.

(** An instance: the bundle has A and B, the field asked for is C. *)
Lemma GetSingleSecret_missing_field_witness :
  AwsInterface.GetSingleSecret (aws_with_secret (string_secret (text "{'A':'1','B':'2'}")))
    "prod/app" "C" fresh
  = (Returned (EmptyString, None), after_send (secret_request "prod/app") fresh).
Proof.
  apply (GetSingleSecret_missing_field
           (aws_with_secret (string_secret (text "{'A':'1','B':'2'}"))) "prod/app" "C" fresh
           (after_send (secret_request "prod/app") fresh)
           {[ "A" := "1"; "B" := "2" ]} None).
  - reflexivity.
  - reflexivity.
  - reflexivity.
Defined.

(** The JSON text {"X":"y"}, byte by byte. *)
Lemma text_Xy :
  text "{'X':'y'}"
  = String "{" (String dquote (String "X" (String dquote (String ":"
      (String dquote (String "y" (String dquote (String "}" EmptyString)))))))).
Proof. reflexivity. Qed.

(** The base64 text eyJYIjoieSJ9 decodes to the JSON text {"X":"y"}, and
    that text to the bundle X -> y. *)
Lemma Decode_Xy : base64.Decode "eyJYIjoieSJ9" = (text "{'X':'y'}", 9, None).
Proof. reflexivity. Qed.

Lemma Unmarshal_Xy : json.Unmarshal (text "{'X':'y'}") ∅ = ({[ "X" := "y" ]}, None).
Proof. reflexivity. Qed.

(** On that payload GrabSecret returns the bundle. *)
Lemma GrabSecret_binary_Xy (name : string) (w : World) :
  AwsResources.GrabSecret (resources_with_secret (binary_secret "eyJYIjoieSJ9")) name w
  = (Returned ({[ "X" := "y" ]}, None), after_send (secret_request name) w).
Proof. reflexivity. Qed.

(** C1 (the code at the failing input): on the binary payload
    eyJYIjoieSJ9, which decodes to {"X":"y"}, GetSecret prints the decoded
    text and returns the empty bundle, where GrabSecret returns the bundle
    X -> y. *)
Theorem GetSecret_binary_payload_not_parsed :
  ∀ (name : string) (w : World),
    base64.Decode "eyJYIjoieSJ9" = (text "{'X':'y'}", 9, None)
    ∧ json.Unmarshal (text "{'X':'y'}") ∅ = ({[ "X" := "y" ]}, None)
    ∧ AwsInterface.GetSecret (aws_with_secret (binary_secret "eyJYIjoieSJ9")) name w
      = (Returned (∅, None),
         after_print [AString (text "{'X':'y'}")] (after_send (secret_request name) w))
    ∧ AwsResources.GrabSecret (resources_with_secret (binary_secret "eyJYIjoieSJ9")) name w
      = (Returned ({[ "X" := "y" ]}, None), after_send (secret_request name) w).
Proof.
  intros name w. split; [apply Decode_Xy|]. split; [apply Unmarshal_Xy|]. split.
  - rewrite (GetSecret_binary _ name w
               {| secretsmanager.SecretString := None;
                  secretsmanager.SecretBinary := "eyJYIjoieSJ9" |});
      reflexivity.
  - apply GrabSecret_binary_Xy.
Qed.

(** A second way to miss the bundle, in GrabSecret: the JSON text
    {"X": "y"} has ten bytes, its base64 text has sixteen, the destination
    twelve; the two zero bytes left after the decoded text make the JSON
    decoder fail. *)
Lemma GrabSecret_binary_padded_rejected (name : string) (w : World) :
  base64.Decode "eyJYIjogInkifQ==" = (text "{'X': 'y'}" +:+ zeros 2, 10, None)
  ∧ json.Unmarshal (text "{'X': 'y'}") ∅ = ({[ "X" := "y" ]}, None)
  ∧ AwsResources.GrabSecret (resources_with_secret (binary_secret "eyJYIjogInkifQ==")) name w
    = (Returned (∅, Some SyntaxError), after_send (secret_request name) w).
Proof. repeat split; reflexivity. Qed.

(** C3 (the code at the failing inputs): after a successful call GetSecret
    never returns an error: on a string payload it returns whatever the
    JSON decoder left in the bundle, on a binary payload the empty bundle.
    The text { is not JSON and the text e30! is not base64. *)
Theorem GetSecret_swallows_decode_failures :
  (∀ (a : AwsInterface.AWS) (name : string) (w : World) result,
     answer (AwsInterface.SecretsManager a) name = (Some result, None) →
     (AwsInterface.GetSecret a name w).1
     = Returned (match secretsmanager.SecretString result with
                 | Some s => (json.Unmarshal s ∅).1
                 | None => ∅
                 end, None))
  ∧ (json.Unmarshal "{" ∅).2 = Some SyntaxError
  ∧ (base64.Decode "e30!").2 = Some CorruptInputError.
Proof.
  split; [|split; reflexivity].
  intros a name w result Hans.
  destruct (secretsmanager.SecretString result) as [s|] eqn:Hs.
  - by rewrite (GetSecret_string _ _ _ _ _ Hans Hs).
  - by rewrite (GetSecret_binary _ _ _ _ Hans Hs).
Qed.

(** An instance: the string payload { gives the empty bundle and no error. *)
Lemma GetSecret_swallows_decode_failures_witness :
  (AwsInterface.GetSecret (aws_with_secret (string_secret "{")) "prod/app" fresh).1
  = Returned (∅, None).
Proof.
  apply (proj1 GetSecret_swallows_decode_failures
           (aws_with_secret (string_secret "{")) "prod/app" fresh
           {| secretsmanager.SecretString := Some "{";
              secretsmanager.SecretBinary := EmptyString |}).
  reflexivity.
Defined.

(** On the binary payload that is not base64 the error is printed. *)
Lemma GetSecret_prints_base64_failure (name : string) (w : World) :
  AwsInterface.GetSecret (aws_with_secret (binary_secret "e30!")) name w
  = (Returned (∅, None),
     after_print [AString EmptyString]
       (after_print [AString "Base64 Decode Error:"; AError CorruptInputError]
          (after_send (secret_request name) w))).
Proof. reflexivity. Qed.

(** GrabSecret returns the error on both. *)
Lemma GrabSecret_returns_decode_failures (name : string) (w : World) :
  (AwsResources.GrabSecret (resources_with_secret (string_secret "{")) name w).1
  = Returned (∅, Some SyntaxError)
  ∧ (AwsResources.GrabSecret (resources_with_secret (binary_secret "e30!")) name w).1
    = Returned (∅, Some CorruptInputError).
Proof. split; reflexivity. Qed.

(** ** SetSecretToEnvironmentVariables *)

Lemma setenv_all_accepted (done rest : list (string * string)) (w : World) :
  Forall accepted done →
  AwsInterface.setenv_all (done ++ rest) w
  = AwsInterface.setenv_all rest (with_environ (set_entries done (environ w)) w).
Proof.
  revert w. induction done as [|[key value] done IH]; intros w Hdone.
  - by destruct w.
  - apply Forall_cons in Hdone as [Hkv Hdone]. unfold accepted in Hkv. cbn in Hkv.
    cbn [app AwsInterface.setenv_all]. go_simpl. unfold os.Setenv. rewrite Hkv.
    go_simpl. rewrite (IH _ Hdone). done.
Qed.

Lemma setenv_all_refused (key value : string) (rest : list (string * string)) (w : World) :
  os.setenv_refused key value = true →
  AwsInterface.setenv_all ((key, value) :: rest) w
  = (Returned (Some (SyscallError "setenv" EINVAL)), w).
Proof.
  intros Hkv. cbn [AwsInterface.setenv_all]. go_simpl. unfold os.Setenv.
  by rewrite Hkv.
Qed.

Lemma set_entries_lookup (entries : list (string * string)) (env : gmap string string)
    (k v : string) :
  NoDup entries.*1 → (k, v) ∈ entries → set_entries entries env !! k = Some v.
Proof.
  unfold set_entries. revert env.
  induction entries as [|[k' v'] entries IH] using rev_ind; intros env Hnd Hin.
  - by apply elem_of_nil in Hin.
  - rewrite foldl_app. cbn. rewrite fmap_app in Hnd.
    apply NoDup_app in Hnd as (Hnd & Hfresh & _).
    apply elem_of_app in Hin as [Hin|Hin].
    + rewrite lookup_insert_ne; [by apply IH|].
      intros <-. apply (Hfresh k'); [|cbn; by left].
      apply list_elem_of_fmap. by exists (k', v).
    + apply list_elem_of_singleton in Hin as [= -> ->]. apply lookup_insert_eq.
Qed.

Lemma set_entries_lookup_other (entries : list (string * string))
    (env : gmap string string) (k : string) :
  k ∉ entries.*1 → set_entries entries env !! k = env !! k.
Proof.
  unfold set_entries. revert env.
  induction entries as [|[k' v'] entries IH]; intros env Hk; [done|].
  cbn in *. apply not_elem_of_cons in Hk as [Hne Hk].
  rewrite (IH _ Hk). by apply lookup_insert_ne.
Qed.

(** GetSecret leaves the environment alone. *)
Lemma GetSecret_environ (a : AwsInterface.AWS) (name : string) (w : World) :
  environ (AwsInterface.GetSecret a name w).2 = environ w.
Proof.
  unfold AwsInterface.GetSecret. go_simpl.
  destruct (secretsmanager.GetSecretValueWithContext _ _ _) as [result [e|]];
    go_simpl; [done|].
  destruct result as [result|]; go_simpl; [|done].
  destruct (secretsmanager.SecretString result); go_simpl.
  - by destruct (json.Unmarshal _ _).
  - destruct (base64.Decode _) as [[decoded len] [e|]]; go_simpl;
      by destruct (json.Unmarshal _ _).
Qed.

(** C8: SetSecretToEnvironmentVariables sets the entries of the bundle in
    the order the runtime visits them.  If os.Setenv accepts the entries
    [done] and refuses the one after them, the function returns that error
    there: every entry of [done] is set, and no other variable has
    changed.  If it accepts them all, every entry of the bundle is set and
    no error is returned. *)
Theorem SetSecretToEnvironmentVariables_stops_at_first_failure :
  ∀ (order : MapOrder) (a : AwsInterface.AWS) (name : string) (w w1 : World)
    (config : gmap string string) (done rest : list (string * string)),
    AwsInterface.GetSecret a name w = (Returned (config, None), w1) →
    range order config = done ++ rest →
    Forall accepted done →
    match rest with
    | [] => True
    | (key, value) :: _ => os.setenv_refused key value = true
    end →
    ∃ w2,
      AwsInterface.SetSecretToEnvironmentVariables order a name w
      = (Returned (match rest with
                   | [] => None
                   | _ :: _ => Some (SyscallError "setenv" EINVAL)
                   end), w2)
      ∧ (∀ k v, (k, v) ∈ done → environ w2 !! k = Some v)
      ∧ (∀ k, k ∉ done.*1 → environ w2 !! k = environ w !! k)
      ∧ (rest = [] → ∀ k v, config !! k = Some v → environ w2 !! k = Some v).
Proof.
  intros order a name w w1 config done rest Hget Horder Hdone Hrest.
  assert (NoDup done.*1) as Hnd.
  { pose proof (NoDup_fst_map_to_list config) as Hnd.
    rewrite <- (range_perm order config), Horder, fmap_app in Hnd.
    by apply NoDup_app in Hnd as [? _]. }
  assert (environ w1 = environ w) as Henv.
  { by rewrite <- (GetSecret_environ a name w), Hget. }
  exists (with_environ (set_entries done (environ w1)) w1).
  split; [|split; [|split]].
  - unfold AwsInterface.SetSecretToEnvironmentVariables. go_simpl.
    rewrite Hget. go_simpl. rewrite Horder, (setenv_all_accepted _ _ _ Hdone).
    destruct rest as [|[key value] rest]; [done|].
    by apply setenv_all_refused.
  - intros k v Hin. cbn. by apply set_entries_lookup.
  - intros k Hk. cbn. rewrite <- Henv. by apply set_entries_lookup_other.
  - intros -> k v Hkv. cbn. apply set_entries_lookup; [done|].
    rewrite app_nil_r in Horder. rewrite <- Horder, (range_perm order config).
    by apply elem_of_map_to_list.
Qed.

(** The third of five: MODE and USER are set, TOKEN is refused, HOST and
    PORT are never tried. *)
Lemma SetSecretToEnvironmentVariables_third_of_five :
  ∃ w2,
    AwsInterface.SetSecretToEnvironmentVariables in_order
      (aws_with_secret (string_secret five_entries)) "prod/app" fresh
    = (Returned (Some (SyscallError "setenv" EINVAL)), w2)
    ∧ (∀ k v, (k, v) ∈ [("MODE", "prod"); ("USER", "app")] → environ w2 !! k = Some v)
    ∧ (∀ k, k ∉ [("MODE", "prod"); ("USER", "app")].*1 →
            environ w2 !! k = environ fresh !! k)
    ∧ ([("TOKEN", String "a" (String Ascii.zero "b")); ("HOST", "db"); ("PORT", "5432")]
       = [] →
       ∀ k v, (json.Unmarshal five_entries ∅).1 !! k = Some v → environ w2 !! k = Some v).
Proof.
  apply (SetSecretToEnvironmentVariables_stops_at_first_failure in_order
           (aws_with_secret (string_secret five_entries)) "prod/app" fresh
           (after_send (secret_request "prod/app") fresh)
           (json.Unmarshal five_entries ∅).1
           [("MODE", "prod"); ("USER", "app")]
           [("TOKEN", String "a" (String Ascii.zero "b")); ("HOST", "db"); ("PORT", "5432")]).
  - reflexivity.
  - reflexivity.
  - repeat constructor.
  - reflexivity.
Defined.

(** * Properties beyond the claims *)

(** ** Further properties: UploadFileToS3 *)

Lemma substring_length_le n s : (String.length (String.substring 0 n s) ≤ n)%nat.
Proof.
  revert s. induction n as [|n IH]; intros [|c s]; cbn; try lia.
  specialize (IH s). lia.
Qed.

Lemma Read_into_length f n : String.length (os.Read_into f n) = n.
Proof.
  unfold os.Read_into. rewrite length_append, length_zeros.
  pose proof (substring_length_le n (Read f n)). lia.
Qed.

Lemma cleanedUpBucketName_returns name w :
  ∃ eff, AwsInterface.cleanedUpBucketName name w = (Returned eff, w).
Proof.
  destruct (after_last_colon_total name) as [eff Heff].
  exists eff. by apply cleanedUpBucketName_spec.
Qed.

(** X1: when os.Open fails, UploadFileToS3 returns that error and leaves
    the process as it was: nothing is sent. *)
Theorem UploadFileToS3_open_error :
  ∀ (a : AwsInterface.AWS) (path bucketName destinationName contentType : string)
    (w : World) (err : error),
    files w path = inr err →
    AwsInterface.UploadFileToS3 a path bucketName destinationName contentType w
    = (Returned (Some err), w).
Proof.
  intros a path bucketName destinationName contentType w err Hopen.
  unfold AwsInterface.UploadFileToS3. go_simpl. by rewrite Hopen.
Qed.

(** An instance. *)
Lemma UploadFileToS3_open_error_witness :
  AwsInterface.UploadFileToS3 (aws_with_secret (string_secret "{}")) "missing.txt"
    "my-bucket" "2026/missing.txt" "text/plain" fresh
  = (Returned (Some (PathError "open" "missing.txt")), fresh).
Proof.
  apply (UploadFileToS3_open_error (aws_with_secret (string_secret "{}")) "missing.txt"
           "my-bucket" "2026/missing.txt" "text/plain" fresh
           (PathError "open" "missing.txt")).
  reflexivity.
Defined.

(** X2: when the file opens and its Stat fails, UploadFileToS3 panics on
    the nil file information, before anything is sent. *)
Theorem UploadFileToS3_stat_failure_panics :
  ∀ (a : AwsInterface.AWS) (path bucketName destinationName contentType : string)
    (w : World) (file : File),
    files w path = inl file → Stat file = None →
    AwsInterface.UploadFileToS3 a path bucketName destinationName contentType w
    = (Panicked NilDereference, w).
Proof.
  intros a path bucketName destinationName contentType w file Hopen Hstat.
  unfold AwsInterface.UploadFileToS3. go_simpl. by rewrite Hopen, Hstat.
Qed.

(** An instance. *)
Lemma UploadFileToS3_stat_failure_witness :
  AwsInterface.UploadFileToS3 (aws_with_secret (string_secret "{}")) "gone.txt"
    "my-bucket" "2026/gone.txt" "text/plain" (fresh_with "gone.txt" unreadable)
  = (Panicked NilDereference, fresh_with "gone.txt" unreadable).
Proof.
  apply (UploadFileToS3_stat_failure_panics (aws_with_secret (string_secret "{}"))
           "gone.txt" "my-bucket" "2026/gone.txt" "text/plain"
           (fresh_with "gone.txt" unreadable) unreadable).
  - reflexivity.
  - reflexivity.
Defined.

(** X3: UploadFileToS3 never prints and never touches the environment; it
    sends nothing or one PutObject request, under the deadline of ten
    seconds, for the given key and content type, private, as an attachment,
    encrypted with AES256, and announcing exactly the length of its body. *)
Theorem UploadFileToS3_request_shape :
  ∀ (a : AwsInterface.AWS) (path bucketName destinationName contentType : string)
    (w : World),
    let w' := (AwsInterface.UploadFileToS3 a path bucketName destinationName contentType w).2 in
    stdout w' = stdout w ∧ environ w' = environ w ∧
    (sent w' = sent w
     ∨ ∃ input,
         sent w' = sent w ++ [ReqPutObject ten_seconds input]
         ∧ s3.Key input = Some destinationName
         ∧ s3.ACL input = Some "private"
         ∧ s3.ContentType input = Some contentType
         ∧ s3.ContentDisposition input = Some "attachment"
         ∧ s3.ServerSideEncryption input = Some "AES256"
         ∧ s3.ContentLength input = Some (Z.of_nat (String.length (s3.Body input)))).
Proof.
  intros a path bucketName destinationName contentType w.
  unfold AwsInterface.UploadFileToS3. go_simpl.
  destruct (files w path) as [file|err]; go_simpl; [|by auto].
  destruct (Stat file) as [info|]; go_simpl; [|by auto].
  case_decide; go_simpl; [by auto|].
  destruct (cleanedUpBucketName_returns bucketName w) as [eff ->]. go_simpl.
  destruct (s3.PutObjectWithContext _ _ _) as [out err]. cbn.
  split; [done|]. split; [done|]. right. eexists. split; [reflexivity|].
  cbn. rewrite Read_into_length. unfold aws_Int64, aws_String.
  repeat split. f_equal. lia.
Qed.

(** A short read is padded with zero bytes up to the announced length. *)
Lemma UploadFileToS3_short_read :
  (AwsInterface.UploadFileToS3 (aws_with_secret (string_secret "{}")) "log.bin"
     "my-bucket" "log.bin" "application/octet-stream" (fresh_with "log.bin" short_read)).2
  = after_send
      (ReqPutObject ten_seconds
         {| s3.Bucket := Some "my-bucket";
            s3.Key := Some "log.bin";
            s3.ACL := Some "private";
            s3.Body := "hello" +:+ zeros 3;
            s3.ContentLength := Some 8%Z;
            s3.ContentType := Some "application/octet-stream";
            s3.ContentDisposition := Some "attachment";
            s3.ServerSideEncryption := Some "AES256" |})
      (fresh_with "log.bin" short_read).
Proof. reflexivity. Qed.

(** ** Further properties: the queue *)

(** X4: whenever a sender returns, it returns an identifier or an error,
    never both and never neither. *)
Theorem SendStringMessage_identifier_or_error :
  (∀ (a : AwsInterface.AWS) (payload qURL : string) (w w' : World)
     (id : ptr string) (err : option error),
     AwsInterface.SendStringMessageToSqs a payload qURL w = (Returned (id, err), w') →
     (is_Some id ↔ err = None))
  ∧ (∀ (a : AwsInterface.AWS) (payload qURL : string) (attributes : gmap string scalar)
     (w w' : World) (id : ptr string) (err : option error),
     AwsInterface.SendStringMessageWithAttributesToSqs a payload qURL attributes w
     = (Returned (id, err), w') →
     (is_Some id ↔ err = None)).
Proof.
  split.
  all: intros a payload qURL; intros.
  all: match goal with H : _ = (Returned _, _) |- _ => revert H end.
  all: unfold AwsInterface.SendStringMessageToSqs,
         AwsInterface.SendStringMessageWithAttributesToSqs; go_simpl.
  all: destruct (sqs.SendMessage _ _) as [[response|] [e|]]; go_simpl;
         try discriminate.
  all: try destruct (sqs.MessageId response) as [i|].
  all: intros [= <- <- _]; split; try done; by intros [? ?].
Qed.

(** An instance. *)
Lemma SendStringMessage_identifier_witness :
  is_Some (Some "5fea7756-0ea4-451a-a703-a558b933e274") ↔ @None error = None.
Proof.
  apply (proj1 SendStringMessage_identifier_or_error
           (aws_with_secret (string_secret "{}"))
           "hello" "https://sqs.us-east-1.amazonaws.com/1/jobs" fresh
           (after_send
              (ReqSendMessage
                 {| sqs.MessageBody := Some "hello";
                    sqs.MessageAttributes := ∅;
                    sqs.QueueUrl_in := Some "https://sqs.us-east-1.amazonaws.com/1/jobs" |})
              fresh)).
  reflexivity.
Defined.


(** X6: what GetQueueUrl does, on every answer: it sends one request,
    prints the error if there is one, and returns the queue URL of the
    response or panics when there is none; the error is never part of the
    result. *)
Theorem GetQueueUrl_result_ignores_error :
  ∀ (a : AwsInterface.AWS) (v : string) (w : World),
    let '(result, err) :=
      sqs.GetQueueUrl (AwsInterface.SQS a) {| sqs.QueueName := Some v |} in
    AwsInterface.GetQueueUrl a v w
    = (match result ≫= sqs.QueueUrl with
       | Some url => Returned url
       | None => Panicked NilDereference
       end,
       after_lines (if err is Some e then [[AError e]] else [])
         (after_send (ReqGetQueueUrl {| sqs.QueueName := Some v |}) w)).
Proof.
  intros a v w. unfold AwsInterface.GetQueueUrl, aws_String. go_simpl.
  destruct (sqs.GetQueueUrl _ _) as [[response|] [e|]]; go_simpl; cbn;
    try destruct (sqs.QueueUrl response); unfold after_lines; cbn;
    rewrite ?app_nil_r; reflexivity.
Qed.

(** ** Further properties: the secret readers *)

(** The three readers, on every answer of the provider. *)
Ltac reader_cases :=
  unfold AwsInterface.GetSecret, AwsInterface.GetSingleSecret, AwsResources.GrabSecret;
  go_simpl;
  repeat match goal with
  | |- context [secretsmanager.GetSecretValueWithContext ?sm ?ctx ?i] =>
      destruct (secretsmanager.GetSecretValueWithContext sm ctx i) as [[?result|] [?e|]];
      go_simpl
  | |- context [secretsmanager.SecretString ?r] =>
      destruct (secretsmanager.SecretString r); go_simpl
  | |- context [base64.Decode ?b] =>
      destruct (base64.Decode b) as [[?buffer ?len] [?e|]]; go_simpl
  | |- context [json.Unmarshal ?s ?m] =>
      destruct (json.Unmarshal s m) as [?config [?e|]]; go_simpl
  end.

(** X7: when the call to the provider fails, the three readers return the
    provider's error as it is, with the empty bundle or the empty string,
    and print nothing. *)
Theorem secret_readers_provider_error :
  ∀ (a : AwsInterface.AWS) (b : AwsResources.AWS) (name field : string) (w : World)
    result e,
    answer (AwsInterface.SecretsManager a) name = (result, Some e) →
    answer (AwsResources.SecretsManager b) name = (result, Some e) →
    AwsInterface.GetSecret a name w
    = (Returned (∅, Some e), after_send (secret_request name) w)
    ∧ AwsInterface.GetSingleSecret a name field w
      = (Returned (EmptyString, Some e), after_send (secret_request name) w)
    ∧ AwsResources.GrabSecret b name w
      = (Returned (∅, Some e), after_send (secret_request name) w).
Proof.
  intros a b name field w result e Ha Hb.
  pose proof (GetSecret_provider_error a name w result e Ha) as Hget.
  split; [done|]. split.
  - by rewrite GetSingleSecret_GetSecret, Hget.
  - by apply (GrabSecret_provider_error b name w result e).
Qed.

(** An instance. *)
Lemma secret_readers_provider_error_witness :
  AwsInterface.GetSecret (aws_with_secret (None, Some timed_out)) "prod/app" fresh
  = (Returned (∅, Some timed_out), after_send (secret_request "prod/app") fresh)
  ∧ AwsInterface.GetSingleSecret (aws_with_secret (None, Some timed_out)) "prod/app" "A" fresh
    = (Returned (EmptyString, Some timed_out), after_send (secret_request "prod/app") fresh)
  ∧ AwsResources.GrabSecret (resources_with_secret (None, Some timed_out)) "prod/app" fresh
    = (Returned (∅, Some timed_out), after_send (secret_request "prod/app") fresh).
Proof.
  apply (secret_readers_provider_error (aws_with_secret (None, Some timed_out))
           (resources_with_secret (None, Some timed_out)) "prod/app" "A" fresh
           None timed_out).
  - reflexivity.
  - reflexivity.
Defined.

(** X8: on every answer of the provider, each reader sends exactly one
    request, the one for the current version of the secret under the
    deadline of ten seconds, and leaves the environment as it was. *)
Theorem secret_readers_one_request :
  ∀ (a : AwsInterface.AWS) (b : AwsResources.AWS) (name field : string) (w : World),
    let one_request (w' : World) :=
      sent w' = sent w ++ [secret_request name] ∧ environ w' = environ w in
    one_request (AwsInterface.GetSecret a name w).2
    ∧ one_request (AwsInterface.GetSingleSecret a name field w).2
    ∧ one_request (AwsResources.GrabSecret b name w).2.
Proof.
  intros a b name field w one_request. unfold one_request, secret_request.
  repeat split; reader_cases; reflexivity.
Qed.

(** X9: GrabSecret never writes to standard output; GetSecret and
    GetSingleSecret write to it only on a binary payload. *)
Theorem secret_printed_only_from_binary :
  (∀ (b : AwsResources.AWS) (name : string) (w : World),
     stdout (AwsResources.GrabSecret b name w).2 = stdout w)
  ∧ (∀ (a : AwsInterface.AWS) (name field : string) (w : World),
     match answer (AwsInterface.SecretsManager a) name with
     | (Some result, None) => is_Some (secretsmanager.SecretString result)
     | _ => True
     end →
     stdout (AwsInterface.GetSecret a name w).2 = stdout w
     ∧ stdout (AwsInterface.GetSingleSecret a name field w).2 = stdout w).
Proof.
  split.
  - intros b name w. reader_cases; reflexivity.
  - intros a name field w Hans. unfold answer in Hans. split; revert Hans.
    all: unfold AwsInterface.GetSecret, AwsInterface.GetSingleSecret; go_simpl.
    all: destruct (secretsmanager.GetSecretValueWithContext _ _ _)
           as [[result|] [e|]]; go_simpl; try done.
    all: intros [s ->]; go_simpl; by destruct (json.Unmarshal _ _).
Qed.

(** An instance. *)
Lemma secret_printed_only_from_binary_witness :
  stdout (AwsInterface.GetSecret (aws_with_secret (string_secret (text "{'A':'1'}")))
            "prod/app" fresh).2 = stdout fresh
  ∧ stdout (AwsInterface.GetSingleSecret
              (aws_with_secret (string_secret (text "{'A':'1'}"))) "prod/app" "A" fresh).2
    = stdout fresh.
Proof.
  apply (proj2 secret_printed_only_from_binary
           (aws_with_secret (string_secret (text "{'A':'1'}"))) "prod/app" "A" fresh).
  by eexists.
Defined.

(** X10: GetSingleSecret is GetSecret followed by the lookup of the field:
    the same error, the same effects, and the value of the field in the
    bundle GetSecret returns, the empty string when it has none. *)
Theorem GetSingleSecret_is_lookup :
  ∀ (a : AwsInterface.AWS) (name field : string) (w w' : World)
    (config : gmap string string) (err : option error),
    AwsInterface.GetSecret a name w = (Returned (config, err), w') →
    AwsInterface.GetSingleSecret a name field w
    = (Returned (default EmptyString (config !! field), err), w').
Proof.
  intros a name field w w' config err Hget.
  by rewrite GetSingleSecret_GetSecret, Hget.
Qed.

(** An instance. *)
Lemma GetSingleSecret_is_lookup_witness :
  AwsInterface.GetSingleSecret (aws_with_secret (string_secret (text "{'A':'1','B':'2'}")))
    "prod/app" "B" fresh
  = (Returned (default EmptyString (({[ "A" := "1"; "B" := "2" ]} : gmap string string) !! "B"),
               None),
     after_send (secret_request "prod/app") fresh).
Proof.
  apply (GetSingleSecret_is_lookup
           (aws_with_secret (string_secret (text "{'A':'1','B':'2'}"))) "prod/app" "B" fresh).
  reflexivity.
Defined.

(** X11: on a string payload GetSecret and GrabSecret return the same
    bundle, the one json.Unmarshal leaves, with the same effects; GrabSecret
    returns the error of json.Unmarshal where GetSecret returns none. *)
Theorem readers_agree_on_string_payload :
  ∀ (a : AwsInterface.AWS) (b : AwsResources.AWS) (name : string) (w : World) result s,
    answer (AwsInterface.SecretsManager a) name = (Some result, None) →
    answer (AwsResources.SecretsManager b) name = (Some result, None) →
    secretsmanager.SecretString result = Some s →
    ∃ config err w',
      json.Unmarshal s ∅ = (config, err)
      ∧ AwsResources.GrabSecret b name w = (Returned (config, err), w')
      ∧ AwsInterface.GetSecret a name w = (Returned (config, None), w').
Proof.
  intros a b name w result s Ha Hb Hs.
  destruct (json.Unmarshal s ∅) as [config err] eqn:Hjson.
  exists config, err, (after_send (secret_request name) w).
  split; [done|]. split.
  - by rewrite (GrabSecret_string _ _ _ _ _ Hb Hs), Hjson.
  - by rewrite (GetSecret_string _ _ _ _ _ Ha Hs), Hjson.
Qed.

(** An instance. *)
Lemma readers_agree_on_string_payload_witness :
  ∃ config err w',
    json.Unmarshal "{" ∅ = (config, err)
    ∧ AwsResources.GrabSecret (resources_with_secret (string_secret "{"))
        "prod/app" fresh = (Returned (config, err), w')
    ∧ AwsInterface.GetSecret (aws_with_secret (string_secret "{"))
        "prod/app" fresh = (Returned (config, None), w').
Proof.
  apply (readers_agree_on_string_payload
           (aws_with_secret (string_secret "{"))
           (resources_with_secret (string_secret "{"))
           "prod/app" fresh
           {| secretsmanager.SecretString := Some "{";
              secretsmanager.SecretBinary := EmptyString |}).
  - reflexivity.
  - reflexivity.
  - reflexivity.
Defined.

(** ** Further properties: a NUL byte is never JSON *)

Lemma lex_start_NUL : json.lex_start Ascii.zero = None.
Proof. reflexivity. Qed.

Lemma lex_step_NUL st :
  keyword_without_NUL st → json.lex_step st Ascii.zero = None.
Proof.
  destruct st as [| | | ? [|[|[|[|?]]]] | | | | | | | | |rest t]; try reflexivity.
  intros Hst. destruct rest as [|r rest]; [done|].
  cbn -[is_byte] in *. apply orb_false_elim in Hst as [Hr _].
  unfold is_byte in *. by rewrite Ascii.eqb_sym, Hr.
Qed.

Lemma lex_start_keyword c ts st :
  json.lex_start c = Some (ts, st) → keyword_without_NUL st.
Proof.
  unfold json.lex_start.
  repeat match goal with
  | |- context [if ?b then _ else _] => destruct b
  end; intros [= <- <-]; reflexivity || done.
Qed.

Lemma lex_step_keyword st c ts st' :
  keyword_without_NUL st → json.lex_step st c = Some (ts, st') →
  keyword_without_NUL st'.
Proof.
  intros Hst.
  destruct st as [| | | ? [|[|[|[|?]]]] | | | | | | | | |rest t]; cbn [json.lex_step];
    try apply lex_start_keyword.
  all: unfold json.end_number.
  all: try (repeat match goal with
            | |- context [if ?b then _ else _] => destruct b
            end;
            try (intros [= <- <-]; done);
            destruct (json.lex_start c) as [[? ?]|] eqn:Hstart; cbn;
            intros [= <- <-]; by apply lex_start_keyword in Hstart).
  destruct rest as [|r [|r' rest]]; try done.
  - destruct (is_byte c r); intros [= <- <-]. done.
  - cbn -[is_byte] in Hst. apply orb_false_elim in Hst as [_ Hst].
    destruct (is_byte c r); intros [= <- <-]. exact Hst.
Qed.

Lemma lex_NUL s t :
  ∀ st, keyword_without_NUL st → json.lex st (s +:+ String Ascii.zero t) = None.
Proof.
  induction s as [|c s IH]; intros st Hst; string_simpl; cbn [json.lex].
  - by rewrite (lex_step_NUL st Hst).
  - destruct (json.lex_step st c) as [[ts st']|] eqn:Hstep; [|done]. cbn.
    by rewrite (IH st' (lex_step_keyword _ _ _ _ Hst Hstep)).
Qed.

(** A text with a NUL byte in it is not JSON. *)
Lemma Unmarshal_NUL s t :
  json.Unmarshal (s +:+ String Ascii.zero t) ∅ = (∅, Some SyntaxError).
Proof.
  unfold json.Unmarshal, json.parse. by rewrite lex_NUL.
Qed.

(** X12: on a binary payload that base64 decodes without error into fewer
    bytes than the destination buffer has, GrabSecret returns a syntax
    error and the empty bundle, whatever the decoded bytes are: it decodes
    the whole buffer, and the zero bytes at its end are not JSON. *)
Theorem GrabSecret_binary_unfilled_buffer :
  ∀ (b : AwsResources.AWS) (name : string) (w : World) result buffer n,
    answer (AwsResources.SecretsManager b) name = (Some result, None) →
    secretsmanager.SecretString result = None →
    base64.Decode (secretsmanager.SecretBinary result) = (buffer, n, None) →
    (n < String.length buffer)%nat →
    AwsResources.GrabSecret b name w
    = (Returned (∅, Some SyntaxError), after_send (secret_request name) w).
Proof.
  intros b name w result buffer n Hans Hs Hdecode Hn.
  rewrite (GrabSecret_binary _ _ _ _ Hans Hs), Hdecode.
  unfold base64.Decode in Hdecode.
  destruct (base64.decode _ _) as [out err]. injection Hdecode as <- <- _.
  rewrite length_append, length_zeros in Hn.
  destruct (_ - _)%nat as [|k]; [lia|]. cbn [zeros].
  by rewrite Unmarshal_NUL.
Qed.

(** An instance. *)
Lemma GrabSecret_binary_unfilled_buffer_witness :
  AwsResources.GrabSecret (resources_with_secret (binary_secret "eyJBIjoiMSIsIkIiOiIyIn0="))
    "prod/app" fresh
  = (Returned (∅, Some SyntaxError), after_send (secret_request "prod/app") fresh).
Proof.
  apply (GrabSecret_binary_unfilled_buffer
           (resources_with_secret (binary_secret "eyJBIjoiMSIsIkIiOiIyIn0=")) "prod/app" fresh
           {| secretsmanager.SecretString := None;
              secretsmanager.SecretBinary := "eyJBIjoiMSIsIkIiOiIyIn0=" |}
           (text "{'A':'1','B':'2'}" +:+ zeros 1) 17).
  - reflexivity.
  - reflexivity.
  - reflexivity.
  - vm_compute. lia.
Defined.

(** ** Further properties: SetSecretToEnvironmentVariables *)

(** The loop is the same in both families. *)
Lemma setenv_all_same (entries : list (string * string)) (w : World) :
  AwsResources.setenv_all entries w = AwsInterface.setenv_all entries w.
Proof.
  revert w. induction entries as [|[key value] entries IH]; intros w; [done|].
  cbn [AwsResources.setenv_all AwsInterface.setenv_all]. go_simpl.
  destruct (os.Setenv key value w) as [[[e|]|p] w']; go_simpl; [done| |done].
  apply IH.
Qed.

Lemma GrabSecret_environ (b : AwsResources.AWS) (name : string) (w : World) :
  environ (AwsResources.GrabSecret b name w).2 = environ w.
Proof.
  unfold AwsResources.GrabSecret. go_simpl.
  destruct (secretsmanager.GetSecretValueWithContext _ _ _) as [[result|] [e|]];
    go_simpl; try done.
  destruct (secretsmanager.SecretString result); go_simpl.
  - by destruct (json.Unmarshal _ _) as [config [e|]].
  - destruct (base64.Decode _) as [[buffer len] [e|]]; go_simpl; [done|].
    by destruct (json.Unmarshal _ _) as [config [e|]].
Qed.

Lemma range_empty (order : MapOrder) : range order ∅ = [].
Proof.
  apply Permutation_nil_r. rewrite (range_perm order ∅). by rewrite map_to_list_empty.
Qed.

(** The entries of a bundle, set in any order, overlay the environment. *)
Lemma set_entries_range (order : MapOrder) (config env : gmap string string) :
  set_entries (range order config) env = config ∪ env.
Proof.
  assert (NoDup (range order config).*1) as Hnd.
  { rewrite (range_perm order config). apply NoDup_fst_map_to_list. }
  apply map_eq. intros k. destruct (config !! k) as [v|] eqn:Hk.
  - rewrite (lookup_union_Some_l _ _ _ _ Hk).
    apply set_entries_lookup; [done|].
    rewrite (range_perm order config). by apply elem_of_map_to_list.
  - rewrite lookup_union_r by done. apply set_entries_lookup_other.
    intros ([k' v] & -> & Hin)%list_elem_of_fmap.
    rewrite (range_perm order config) in Hin.
    apply elem_of_map_to_list in Hin. cbn in Hk. congruence.
Qed.

(** X13: on a binary payload SetSecretToEnvironmentVariables of the
    AwsInterface family sets no variable and returns no error. *)
Theorem SetSecretToEnvironmentVariables_binary_sets_nothing :
  ∀ (order : MapOrder) (a : AwsInterface.AWS) (name : string) (w : World) result,
    answer (AwsInterface.SecretsManager a) name = (Some result, None) →
    secretsmanager.SecretString result = None →
    ∃ w',
      AwsInterface.SetSecretToEnvironmentVariables order a name w = (Returned None, w')
      ∧ environ w' = environ w.
Proof.
  intros order a name w result Hans Hs. eexists.
  unfold AwsInterface.SetSecretToEnvironmentVariables. go_simpl.
  rewrite (GetSecret_binary _ _ _ _ Hans Hs). go_simpl.
  rewrite range_empty. split; reflexivity.
Qed.

(** An instance. *)
Lemma SetSecretToEnvironmentVariables_binary_witness :
  ∃ w',
    AwsInterface.SetSecretToEnvironmentVariables in_order
      (aws_with_secret (binary_secret "eyJYIjoieSJ9")) "prod/app" fresh
    = (Returned None, w')
    ∧ environ w' = environ fresh.
Proof.
  apply (SetSecretToEnvironmentVariables_binary_sets_nothing in_order
           (aws_with_secret (binary_secret "eyJYIjoieSJ9")) "prod/app" fresh
           {| secretsmanager.SecretString := None;
              secretsmanager.SecretBinary := "eyJYIjoieSJ9" |}).
  - reflexivity.
  - reflexivity.
Defined.

(** X14: when the reader returns an error, SetSecretToEnvironmentVariables
    returns it and sets no variable, in both families. *)
Theorem SetSecretToEnvironmentVariables_reader_error :
  (∀ (order : MapOrder) (a : AwsInterface.AWS) (name : string) (w w1 : World) config e,
     AwsInterface.GetSecret a name w = (Returned (config, Some e), w1) →
     AwsInterface.SetSecretToEnvironmentVariables order a name w = (Returned (Some e), w1)
     ∧ environ w1 = environ w)
  ∧ (∀ (order : MapOrder) (b : AwsResources.AWS) (name : string) (w w1 : World) config e,
     AwsResources.GrabSecret b name w = (Returned (config, Some e), w1) →
     AwsResources.SetSecretToEnvironmentVariables order b name w = (Returned (Some e), w1)
     ∧ environ w1 = environ w).
Proof.
  split.
  - intros order a name w w1 config e Hget. split.
    + unfold AwsInterface.SetSecretToEnvironmentVariables. go_simpl. by rewrite Hget.
    + by rewrite <- (GetSecret_environ a name w), Hget.
  - intros order b name w w1 config e Hgrab. split.
    + unfold AwsResources.SetSecretToEnvironmentVariables. go_simpl. by rewrite Hgrab.
    + by rewrite <- (GrabSecret_environ b name w), Hgrab.
Qed.

(** An instance. *)
Lemma SetSecretToEnvironmentVariables_reader_error_witness :
  AwsResources.SetSecretToEnvironmentVariables in_order
    (resources_with_secret (string_secret "{")) "prod/app" fresh
  = (Returned (Some SyntaxError), after_send (secret_request "prod/app") fresh)
  ∧ environ (after_send (secret_request "prod/app") fresh) = environ fresh.
Proof.
  apply (proj2 SetSecretToEnvironmentVariables_reader_error in_order
           (resources_with_secret (string_secret "{")) "prod/app" fresh
           (after_send (secret_request "prod/app") fresh) ∅ SyntaxError).
  reflexivity.
Defined.

(** X15: when os.Setenv accepts every entry, the environment after
    SetSecretToEnvironmentVariables is the bundle laid over the environment
    before, whatever order the runtime visits the entries in; in both
    families. *)
Theorem SetSecretToEnvironmentVariables_overlays_environment :
  (∀ (order : MapOrder) (a : AwsInterface.AWS) (name : string) (w w1 : World) config,
     AwsInterface.GetSecret a name w = (Returned (config, None), w1) →
     Forall accepted (range order config) →
     AwsInterface.SetSecretToEnvironmentVariables order a name w
     = (Returned None, with_environ (config ∪ environ w) w1))
  ∧ (∀ (order : MapOrder) (b : AwsResources.AWS) (name : string) (w w1 : World) config,
     AwsResources.GrabSecret b name w = (Returned (config, None), w1) →
     Forall accepted (range order config) →
     AwsResources.SetSecretToEnvironmentVariables order b name w
     = (Returned None, with_environ (config ∪ environ w) w1)).
Proof.
  split.
  - intros order a name w w1 config Hget Hall.
    assert (environ w1 = environ w) as Henv.
    { by rewrite <- (GetSecret_environ a name w), Hget. }
    unfold AwsInterface.SetSecretToEnvironmentVariables. go_simpl. rewrite Hget. go_simpl.
    rewrite <- (app_nil_r (range order config)), (setenv_all_accepted _ _ _ Hall).
    by rewrite set_entries_range, Henv.
  - intros order b name w w1 config Hgrab Hall.
    assert (environ w1 = environ w) as Henv.
    { by rewrite <- (GrabSecret_environ b name w), Hgrab. }
    unfold AwsResources.SetSecretToEnvironmentVariables. go_simpl. rewrite Hgrab. go_simpl.
    rewrite setenv_all_same.
    rewrite <- (app_nil_r (range order config)), (setenv_all_accepted _ _ _ Hall).
    by rewrite set_entries_range, Henv.
Qed.

(** An instance. *)
Lemma SetSecretToEnvironmentVariables_overlays_witness :
  AwsInterface.SetSecretToEnvironmentVariables in_order
    (aws_with_secret (string_secret (text "{'A':'1','B':'2'}"))) "prod/app" fresh
  = (Returned None,
     with_environ ({[ "A" := "1"; "B" := "2" ]} ∪ environ fresh)
       (after_send (secret_request "prod/app") fresh)).
Proof.
  apply (proj1 SetSecretToEnvironmentVariables_overlays_environment in_order
           (aws_with_secret (string_secret (text "{'A':'1','B':'2'}"))) "prod/app" fresh
           (after_send (secret_request "prod/app") fresh) {[ "A" := "1"; "B" := "2" ]}).
  - reflexivity.
  - repeat constructor.
Defined.

(** X16: SetSecretToEnvironmentVariables of the AwsResources family stops
    at the first entry os.Setenv refuses and returns that error; the
    entries before it are set and nothing else has changed. *)
Theorem GrabSecret_environment_stops_at_first_failure :
  ∀ (order : MapOrder) (b : AwsResources.AWS) (name : string) (w w1 : World)
    (config : gmap string string) (done rest : list (string * string))
    (key value : string),
    AwsResources.GrabSecret b name w = (Returned (config, None), w1) →
    range order config = done ++ (key, value) :: rest →
    Forall accepted done →
    os.setenv_refused key value = true →
    AwsResources.SetSecretToEnvironmentVariables order b name w
    = (Returned (Some (SyscallError "setenv" EINVAL)),
       with_environ (list_to_map done ∪ environ w) w1).
Proof.
  intros order b name w w1 config done rest key value Hgrab Horder Hdone Hrefused.
  assert (environ w1 = environ w) as Henv.
  { by rewrite <- (GrabSecret_environ b name w), Hgrab. }
  assert (NoDup done.*1) as Hnd.
  { pose proof (NoDup_fst_map_to_list config) as Hnd.
    rewrite <- (range_perm order config), Horder, fmap_app in Hnd.
    by apply NoDup_app in Hnd as [? _]. }
  unfold AwsResources.SetSecretToEnvironmentVariables. go_simpl. rewrite Hgrab. go_simpl.
  rewrite setenv_all_same, Horder, (setenv_all_accepted _ _ _ Hdone).
  rewrite (setenv_all_refused _ _ _ _ Hrefused). do 2 f_equal. rewrite Henv.
  unfold with_environ. cbn. f_equal.
  apply map_eq. intros k. destruct ((list_to_map done : gmap string string) !! k) as [v|] eqn:Hk.
  - rewrite (lookup_union_Some_l _ _ _ _ Hk).
    apply set_entries_lookup; [done|]. by apply elem_of_list_to_map.
  - rewrite lookup_union_r by done. apply set_entries_lookup_other.
    by apply not_elem_of_list_to_map.
Qed.

(** An instance. *)
Lemma GrabSecret_environment_third_of_five :
  AwsResources.SetSecretToEnvironmentVariables in_order
    (resources_with_secret (string_secret five_entries)) "prod/app" fresh
  = (Returned (Some (SyscallError "setenv" EINVAL)),
     with_environ (list_to_map [("MODE", "prod"); ("USER", "app")] ∪ environ fresh)
       (after_send (secret_request "prod/app") fresh)).
Proof.
  apply (GrabSecret_environment_stops_at_first_failure in_order
           (resources_with_secret (string_secret five_entries)) "prod/app" fresh
           (after_send (secret_request "prod/app") fresh)
           (json.Unmarshal five_entries ∅).1
           [("MODE", "prod"); ("USER", "app")]
           [("HOST", "db"); ("PORT", "5432")]
           "TOKEN" (String "a" (String Ascii.zero "b"))).
  - reflexivity.
  - reflexivity.
  - repeat constructor.
  - reflexivity.
Defined.
